(** * Attendance controller (backend/controllers/studentController.js)

    A shallow embedding of the three request handlers of the controller
    ([fetchNotifications], [submitAttendance], [getAttendanceHistory]) and of
    the JavaScript [Date], [moment-timezone] and [String] operations they call,
    followed by the properties of the validation pipeline and of the
    notification status derivation.

    Conventions of the embedding.
    - An instant (a JS [Date], a [moment]) is its number of milliseconds since
      the epoch, a [Z].
    - A date string ["YYYY-MM-DD"] is the calendar triple it denotes
      ([JSDate.CivilDate]); a time string ["HH:mm"] is its pair of numbers,
      hour and minute.  Stored dates and times are taken to be well formed.
    - A time zone is a fixed offset from UTC in milliseconds.  Asia/Kolkata is
      UTC+05:30 without daylight saving; the zone of the server process, used
      by the local-time methods of [Date], is a parameter [tz].
    - JS numbers that are not instants (coordinates, distances, radii) are
      exact rationals.  The body of a request is not validated: a coordinate
      of the request may be missing or not a number, which makes the
      distance [NaN], and the class code may be a string, a number or a
      query operator object; the other fields of the body are strings.
      Stored documents follow their schemas.
    - Strings are sequences of ASCII characters.
    - A collection of the data store is the list of its documents in insertion
      order; [findOne] returns the first match.
    - Faults that a handler catches and answers with status 500 (an error of
      the data store, an exception) are outside the model. *)

From Stdlib Require Import ZArith QArith Qround Qabs Bool List Lia.
From Stdlib Require Import Ascii String DecimalString.
From Stdlib Require Import Sorted Permutation.
Import ListNotations.

Local Open Scope Z_scope.

(* ------------------------------------------------------------------------- *)
(** ** JavaScript dates *)

Module JSDate.

Definition msPerMinute : Z := 60000.
Definition msPerHour : Z := 3600000.
Definition msPerDay : Z := 86400000.

(** ECMAScript [Day(t)] and [TimeWithinDay(t)]. *)
Definition Day (t : Z) : Z := t / msPerDay.
Definition TimeWithinDay (t : Z) : Z := t mod msPerDay.

Definition HourFromTime (t : Z) : Z := (t / msPerHour) mod 24.
Definition MinFromTime (t : Z) : Z := (t / msPerMinute) mod 60.
Definition SecFromTime (t : Z) : Z := (t / 1000) mod 60.
Definition msFromTime (t : Z) : Z := t mod 1000.

Definition MakeTime (hour min sec ms : Z) : Z :=
  hour * msPerHour + min * msPerMinute + sec * 1000 + ms.
Definition MakeDate (day time : Z) : Z := day * msPerDay + time.

(** A calendar date of the proleptic Gregorian calendar; [cmonth] counts
    from 1 (January), as in the text ["YYYY-MM-DD"]. *)
Record CivilDate : Set := mkDate { cyear : Z; cmonth : Z; cday : Z }.

Definition CivilDate_eqb (a b : CivilDate) : bool :=
  (cyear a =? cyear b) && (cmonth a =? cmonth b) && (cday a =? cday b).

(** The calendar date of day number [z] (days since 1970-01-01): the
    composition of ECMAScript's [YearFromTime], [MonthFromTime] and
    [DateFromTime].  Days are counted in eras of 400 years (146097 days)
    that start on a 1st of March, then in centuries (36524 days, the last
    one a day longer), four-year cycles (1461 days) and years (365 days,
    the last one of a cycle a day longer). *)
Definition civil_from_days (z : Z) : CivilDate :=
  let z := z + 719468 in
  let era := z / 146097 in
  let doe := z mod 146097 in
  let c := Z.min (doe / 36524) 3 in
  let doc := doe - c * 36524 in
  let q := doc / 1461 in
  let doq := doc - q * 1461 in
  let a := Z.min (doq / 365) 3 in
  let doy := doq - a * 365 in
  let yoe := c * 100 + q * 4 + a in
  let mp := (5 * doy + 2) / 153 in
  let d := doy - (153 * mp + 2) / 5 + 1 in
  let m := if mp <? 10 then mp + 3 else mp - 9 in
  let y := yoe + era * 400 in
  mkDate (if m <=? 2 then y + 1 else y) m d.

(** ECMAScript [MakeDay(year, month, date)]: the day number of the 1st of
    the month, plus [date - 1]; a [date] outside the month carries over. *)
Definition MakeDay (y m dt : Z) : Z :=
  let y := if m <=? 2 then y - 1 else y in
  let era := y / 400 in
  let yoe := y mod 400 in
  let doy := (153 * (if 2 <? m then m - 3 else m + 9) + 2) / 5 in
  let doe := yoe * 365 + yoe / 4 - yoe / 100 + doy in
  era * 146097 + doe - 719468 + dt - 1.

Definition days_from_civil (c : CivilDate) : Z :=
  MakeDay (cyear c) (cmonth c) (cday c).

(** [d.toISOString().split('T')[0]]: the UTC calendar date of an instant. *)
Definition toISODate (t : Z) : CivilDate := civil_from_days (Day t).

(** [new Date("YYYY-MM-DD")]: a date-only text denotes UTC midnight. *)
Definition parseISODate (c : CivilDate) : Z :=
  MakeDate (days_from_civil c) 0.

Section LocalZone.
(** Offset of the process's time zone, milliseconds east of UTC. *)
Variable tz : Z.

Definition LocalTime (t : Z) : Z := t + tz.
Definition UTC (t : Z) : Z := t - tz.

(** [d.getDate()], [d.getMinutes()]. *)
Definition getDate (t : Z) : Z := cday (civil_from_days (Day (LocalTime t))).
Definition getMinutes (t : Z) : Z := MinFromTime (LocalTime t).

(** [d.setDate(dt)]: value of the date afterwards (also the method's
    return value). *)
Definition setDate (t dt : Z) : Z :=
  let lt := LocalTime t in
  let c := civil_from_days (Day lt) in
  UTC (MakeDate (MakeDay (cyear c) (cmonth c) dt) (TimeWithinDay lt)).

(** [d.setMinutes(min)]. *)
Definition setMinutes (t min : Z) : Z :=
  let lt := LocalTime t in
  UTC (MakeDate (Day lt)
         (MakeTime (HourFromTime lt) min (SecFromTime lt) (msFromTime lt))).

(** [d.setHours(hour, min, sec, ms)]. *)
Definition setHours (t hour min sec ms : Z) : Z :=
  UTC (MakeDate (Day (LocalTime t)) (MakeTime hour min sec ms)).
End LocalZone.

End JSDate.

(* ------------------------------------------------------------------------- *)
(** ** moment-timezone *)

Module Moment.
Import JSDate.

(** Asia/Kolkata: UTC+05:30. *)
Definition Asia_Kolkata : Z := 19800000.

(** [m.format('YYYY-MM-DD')] of a moment of zone [zone]. *)
Definition format_date (zone t : Z) : CivilDate :=
  civil_from_days (Day (t + zone)).

(** [moment.tz(`${date} ${time}`, 'YYYY-MM-DD HH:mm', zone)]. *)
Definition tz_parse (zone : Z) (date : CivilDate) (hm : Z * Z) : Z :=
  MakeDate (days_from_civil date) (MakeTime (fst hm) (snd hm) 0 0) - zone.

(** [m.startOf('day')], [m.endOf('day')] (the last millisecond of the day). *)
Definition startOf_day (zone t : Z) : Z := Day (t + zone) * msPerDay - zone.
Definition endOf_day (zone t : Z) : Z := startOf_day zone t + msPerDay - 1.

(** [a.diff(b, 'minutes')]: the difference in minutes, truncated towards
    zero. *)
Definition diff_minutes (a b : Z) : Z := Z.quot (a - b) msPerMinute.

(** [a.isAfter(b)]. *)
Definition isAfter (a b : Z) : bool := b <? a.
End Moment.

(* ------------------------------------------------------------------------- *)
(** ** JavaScript strings and numbers *)

Module JSString.
Local Open Scope string_scope.

(** White space and line terminators of the ASCII range: TAB, LF, VT, FF,
    CR and SPACE. *)
Definition isWhiteSpace (c : ascii) : bool :=
  let n := nat_of_ascii c in
  ((9 <=? n)%nat && (n <=? 13)%nat) || (n =? 32)%nat.

Fixpoint trimStart (s : string) : string :=
  match s with
  | EmptyString => EmptyString
  | String c rest => if isWhiteSpace c then trimStart rest else s
  end.

Fixpoint trimEnd (s : string) : string :=
  match s with
  | EmptyString => EmptyString
  | String c rest =>
      match trimEnd rest with
      | EmptyString => if isWhiteSpace c then EmptyString else String c EmptyString
      | kept => String c kept
      end
  end.

(** Strings made of white space only. *)
Fixpoint isBlank (s : string) : bool :=
  match s with
  | EmptyString => true
  | String c rest => isWhiteSpace c && isBlank rest
  end.

(** [s.trim()]. *)
Definition trim (s : string) : string := trimEnd (trimStart s).

Definition toLowerChar (c : ascii) : ascii :=
  let n := nat_of_ascii c in
  if ((65 <=? n)%nat && (n <=? 90)%nat)%bool then ascii_of_nat (n + 32) else c.

Definition toUpperChar (c : ascii) : ascii :=
  let n := nat_of_ascii c in
  if ((97 <=? n)%nat && (n <=? 122)%nat)%bool then ascii_of_nat (n - 32) else c.

Fixpoint map_chars (f : ascii -> ascii) (s : string) : string :=
  match s with
  | EmptyString => EmptyString
  | String c rest => String (f c) (map_chars f rest)
  end.

(** [s.toLowerCase()], [s.toUpperCase()]. *)
Definition toLowerCase : string -> string := map_chars toLowerChar.
Definition toUpperCase : string -> string := map_chars toUpperChar.

(** Truthiness of a value that is a string, [undefined] or [null]: only a
    non-empty string is truthy. *)
Definition truthy (v : option string) : bool :=
  match v with
  | Some s => negb (s =? EmptyString)
  | None => false
  end.

(** [a === b] on such values ([None] stands for [null]). *)
Definition strict_eq (a b : option string) : bool :=
  match a, b with
  | Some x, Some y => x =? y
  | None, None => true
  | _, _ => false
  end.

(** [n.toString()] of a natural number. *)
Definition Number_toString (n : N) : string :=
  NilZero.string_of_uint (N.to_uint n).
End JSString.

(** A number that may be [NaN]. *)
Inductive JSNumber : Type :=
| Num (q : Q)
| NaN.

Module JSMath.
(** [a > b] for [a] a number or [NaN] and [b] a number: a comparison with
    [NaN] is false. *)
Definition gt (a : JSNumber) (b : Q) : bool :=
  match a with
  | Num q => negb (Qle_bool q b)
  | NaN => false
  end.
(** [Math.round], [Math.ceil], [Math.floor]. *)
Definition round (x : Q) : Z := Qfloor (x + (1 # 2)).
(** [Math.round] where the handler applies it, to a distance that compared
    greater than the radius and so is a number; on [NaN], which never
    reaches it, the value is immaterial. *)
Definition round_number (x : JSNumber) : Z :=
  match x with
  | Num q => round q
  | NaN => 0
  end.
Definition ceil (x : Q) : Z := Qceiling x.
Definition floor (x : Q) : Z := Qfloor x.
(** [Math.max] on integers. *)
Definition max (a b : Z) : Z := Z.max a b.
End JSMath.

(* ------------------------------------------------------------------------- *)
(** ** Data model *)

(** Modelled from the spec: the Mongoose schemas [../models/Student],
    [../models/CreateClass], [../models/AddClass] and [../models/Attendance]
    are not among the sources.  The records below carry the fields the
    controller reads and writes, with the types section 3 of the
    specification gives them: a scheduled class has a date and start and end
    times of day, a class location has coordinates, a radius in meters and an
    optional beacon identifier. *)

Module Student.
Record t : Type := mk {
  rollNumber : string;
  name : string;
  year : N;
  department : string
}.
End Student.

(** A scheduled class session (model [CreateClass]). *)
Module CreateClass.
Record t : Type := mk {
  className : string;
  subject : string;
  teacherName : string;
  date : JSDate.CivilDate;      (* "YYYY-MM-DD" *)
  day : string;
  startTime : Z * Z;            (* "HH:mm" *)
  endTime : Z * Z;              (* "HH:mm" *)
  classCode : string;
  year : string;
  branch : string
}.
End CreateClass.

(** Geofence and beacon configuration of a class name (model [AddClass]). *)
Module AddClass.
Record t : Type := mk {
  className : string;
  latitude : Q;
  longitude : Q;
  radius : Q;
  beaconId : option string
}.
End AddClass.

Module Attendance.
Record t : Type := mk {
  _id : nat;
  rollNumber : string;
  className : string;
  subject : string;
  classCode : string;
  status : string;
  time : Z
}.

(** [doc.save()]: the document is appended to the collection; its
    identifier is its rank in the collection. *)
Definition save (store : list t) (doc : nat -> t) : list t :=
  store ++ [doc (List.length store)].
End Attendance.

(** The collections the handlers only read. *)
Record DB : Type := mkDB {
  students : list Student.t;
  classes : list CreateClass.t;
  locations : list AddClass.t
}.

(** The collection the handlers read and append to. *)
Definition Store : Type := list Attendance.t.

(** What a client may send as [classCode]: a JSON string, a JSON number (a
    natural number here) or the query operator object [{"$ne": v}] with [v]
    a string or [null]. *)
Inductive CodeValue : Type :=
| CodeText (s : string)
| CodeNumber (n : N)
| CodeNe (v : option string).

(** [{ classCode: q }] as a query on a stored code: a string matches itself,
    a number is cast by the schema to its decimal text, and [{"$ne": v}]
    matches every stored code other than [v]. *)
Definition code_query (q : CodeValue) (stored : string) : bool :=
  match q with
  | CodeText s => String.eqb stored s
  | CodeNumber n => String.eqb stored (JSString.Number_toString n)
  | CodeNe None => true
  | CodeNe (Some s) => negb (String.eqb stored s)
  end.

(** [q === stored], for a stored code, which is a string. *)
Definition code_strict_eq (q : CodeValue) (stored : string) : bool :=
  match q with
  | CodeText s => String.eqb s stored
  | CodeNumber _ | CodeNe _ => false
  end.

(** Body of a [submitAttendance] request.  A coordinate is the number sent,
    or [None] when it is missing or not a number. *)
Module Body.
Record beacon : Type := mkBeacon { beaconId : option string }.
Record t : Type := mk {
  rollNumber : string;
  className : string;
  latitude : option Q;
  longitude : option Q;
  beaconProximity : option beacon;
  classCode : CodeValue
}.
End Body.

(** Responses of [submitAttendance], one constructor per [res.status(..).json(..)]
    of the handler, with the fields of the JSON body other than [message]. *)
Inductive SubmitResponse : Type :=
| StudentNotFound
| ClassNotFound
| LocationNotFound
| OutOfRange (distance : Z) (allowedRadius : Q)
| Misconfigured
| BeaconMismatch (expectedBeaconId receivedBeaconId : option string)
| CodeMismatch (expected : string)
| TooEarly (minutesUntilStart : Z)
| WindowExpired (minutesLate : Z)
| AlreadyMarked
| Success (className subject : string) (date : JSDate.CivilDate) (time : Z).

Definition http_status (r : SubmitResponse) : Z :=
  match r with
  | StudentNotFound | ClassNotFound | LocationNotFound => 404
  | OutOfRange _ _ | BeaconMismatch _ _ | CodeMismatch _
  | TooEarly _ | WindowExpired _ => 403
  | Misconfigured | AlreadyMarked => 400
  | Success _ _ _ _ => 200
  end.

Definition message (r : SubmitResponse) : string :=
  match r with
  | StudentNotFound => "Student not found"
  | ClassNotFound => "No matching class found for today"
  | LocationNotFound => "Class location data not found"
  | OutOfRange _ _ => "You are not within the class area"
  | Misconfigured => "No beacon ID configured for this class"
  | BeaconMismatch _ _ => "Required beacon not detected or out of range"
  | CodeMismatch _ => "Invalid class code provided"
  | TooEarly _ => "Class has not started yet"
  | WindowExpired _ => "Attendance window has expired"
  | AlreadyMarked => "Attendance already submitted for this class"
  | Success _ _ _ _ => "Attendance submitted successfully"
  end.

(** The step of the handler that sends a response: gates 1 to 8 in the order
    of the specification, 9 for the commit. *)
Definition issued_by (r : SubmitResponse) : nat :=
  match r with
  | StudentNotFound => 1
  | ClassNotFound => 2
  | LocationNotFound => 3
  | OutOfRange _ _ => 4
  | Misconfigured | BeaconMismatch _ _ => 5
  | CodeMismatch _ => 6
  | TooEarly _ | WindowExpired _ => 7
  | AlreadyMarked => 8
  | Success _ _ _ _ => 9
  end.

Definition is_success (r : SubmitResponse) : bool :=
  match r with
  | Success _ _ _ _ => true
  | _ => false
  end.

(** Status of a notification. *)
Inductive NotifStatus : Set :=
| marked | expired | active | starting_soon | upcoming.

Definition NotifStatus_eqb (a b : NotifStatus) : bool :=
  match a, b with
  | marked, marked | expired, expired | active, active
  | starting_soon, starting_soon | upcoming, upcoming => true
  | _, _ => false
  end.

Module Notification.
Record t : Type := mk {
  className : string;
  subject : string;
  teacherName : string;
  date : JSDate.CivilDate;
  startTime : Z * Z;
  endTime : Z * Z;
  day : string;
  status : NotifStatus;
  minutesUntilStart : Z;
  minutesRemaining : Z;
  attendanceId : option nat
}.
End Notification.

Inductive NotifResponse : Type :=
| NotifStudentNotFound
| NotifOk (notifications : list Notification.t) (serverTime : Z).

Module HistoryEntry.
Record t : Type := mk {
  className : string;
  subject : string;
  status : string;
  date : JSDate.CivilDate;      (* local date, shown as "Jan 2, 2024" *)
  time : Z * Z                  (* local hour and minute, shown as "02:05 PM" *)
}.
End HistoryEntry.

Inductive HistoryResponse : Type :=
| HistStudentNotFound
| HistOk (history : list HistoryEntry.t).

(* ------------------------------------------------------------------------- *)
(** ** The controller *)

(** Sorting by a key, as [.sort({ field: 1 })] does; documents with equal keys
    keep the order of the collection. *)
Fixpoint insert_by {A : Type} (leb : A -> A -> bool) (x : A) (l : list A) : list A :=
  match l with
  | [] => [x]
  | y :: rest => if leb x y then x :: l else y :: insert_by leb x rest
  end.

Definition sort_by {A : Type} (leb : A -> A -> bool) (l : list A) : list A :=
  fold_right (insert_by leb) [] l.

(** Order of two ["HH:mm"] times. *)
Definition hm_leb (a b : Z * Z) : bool :=
  (fst a <? fst b) || ((fst a =? fst b) && (snd a <=? snd b)).

Section Controller.
Import JSDate.

(** [haversine(a, b)] of the package [haversine-distance]: the great-circle
    distance in meters between two points given by latitude and
    longitude. *)
Variable haversine : Q * Q -> Q * Q -> Q.

(** [new RegExp(`^${pattern}$`, 'i')] applied to a stored string by the
    data store. *)
Variable RegExp_i : string -> string -> bool.

(** Offset of the time zone of the server process. *)
Variable tz : Z.

Variable db : DB.

(** *** Queries *)

(** [Student.findOne({ rollNumber })] *)
Definition Student_findOne (rollNumber : string) : option Student.t :=
  find (fun s => String.eqb (Student.rollNumber s) rollNumber) (students db).

(** [CreateClass.findOne({ classCode })] *)
Definition CreateClass_findOne (classCode : CodeValue) : option CreateClass.t :=
  find (fun c => code_query classCode (CreateClass.classCode c)) (classes db).

(** [CreateClass.find({ year, branch, date }).sort({ startTime: 1 })] *)
Definition CreateClass_find (year branch : string) (date : CivilDate)
  : list CreateClass.t :=
  sort_by (fun a b => hm_leb (CreateClass.startTime a) (CreateClass.startTime b))
    (filter (fun c => String.eqb (CreateClass.year c) year
                      && String.eqb (CreateClass.branch c) branch
                      && CivilDate_eqb (CreateClass.date c) date)
            (classes db)).

(** [AddClass.findOne({ className: new RegExp(`^${className}$`, 'i') })] *)
Definition AddClass_findOne (className : string) : option AddClass.t :=
  find (fun g => RegExp_i className (AddClass.className g)) (locations db).

(** [Attendance.findOne({ rollNumber, className, subject,
                          time: { $gte: from, $lt: to } })] *)
Definition Attendance_findOne (store : Store)
    (rollNumber className subject : string) (from to : Z)
  : option Attendance.t :=
  find (fun a => String.eqb (Attendance.rollNumber a) rollNumber
                 && String.eqb (Attendance.className a) className
                 && String.eqb (Attendance.subject a) subject
                 && (from <=? Attendance.time a) && (Attendance.time a <? to))
       store.

(** [Attendance.find({ rollNumber }).sort({ time: -1 })] *)
Definition Attendance_find (store : Store) (rollNumber : string) : list Attendance.t :=
  sort_by (fun a b => Attendance.time b <=? Attendance.time a)
    (filter (fun a => String.eqb (Attendance.rollNumber a) rollNumber) store).

(** *** fetchNotifications *)

(** Lines 56-69: the status of a class. *)
Definition notification_status (existingAttendance : option Attendance.t)
    (isEnded : bool) (minutesFromStart minutesUntilStart : Z) : NotifStatus :=
  match existingAttendance with
  | Some _ => marked
  | None =>
      if isEnded then expired
      else if (0 <=? minutesFromStart) && (minutesFromStart <=? 15) then active
      else if minutesUntilStart <=? 5 then starting_soon
      else if 5 <? minutesUntilStart then upcoming
      else expired
  end.

(** Lines 34-84: the notification of one class, at server time
    [serverTime]. *)
Definition notification (store : Store) (serverTime : Z) (rollNumber : string)
    (classInfo : CreateClass.t) : Notification.t :=
  let classDate :=
    Moment.tz_parse Moment.Asia_Kolkata
      (CreateClass.date classInfo) (CreateClass.startTime classInfo) in
  let classEndDate :=
    Moment.tz_parse Moment.Asia_Kolkata
      (CreateClass.date classInfo) (CreateClass.endTime classInfo) in
  let existingAttendance :=
    Attendance_findOne store rollNumber
      (CreateClass.className classInfo) (CreateClass.subject classInfo)
      (Moment.startOf_day Moment.Asia_Kolkata classDate)
      (Moment.endOf_day Moment.Asia_Kolkata classDate) in
  let minutesUntilStart := Moment.diff_minutes classDate serverTime in
  let minutesFromStart := Moment.diff_minutes serverTime classDate in
  let isEnded := Moment.isAfter serverTime classEndDate in
  let status :=
    notification_status existingAttendance isEnded
      minutesFromStart minutesUntilStart in
  Notification.mk
    (CreateClass.className classInfo)
    (CreateClass.subject classInfo)
    (CreateClass.teacherName classInfo)
    (CreateClass.date classInfo)
    (CreateClass.startTime classInfo)
    (CreateClass.endTime classInfo)
    (CreateClass.day classInfo)
    status
    (JSMath.max 0 minutesUntilStart)
    (if NotifStatus_eqb status active
     then JSMath.max 0 (15 - minutesFromStart) else 0)
    (option_map Attendance._id existingAttendance).

(** The handler, run when the clock reads [now]. *)
Definition fetchNotifications (store : Store) (now : Z) (rollNumber : string)
  : NotifResponse :=
  let serverTime := now in
  let formattedDate := Moment.format_date Moment.Asia_Kolkata serverTime in
  match Student_findOne rollNumber with
  | None => NotifStudentNotFound
  | Some student =>
      let classes :=
        CreateClass_find (JSString.Number_toString (Student.year student))
          (Student.department student) formattedDate in
      let notifications := map (notification store serverTime rollNumber) classes in
      let activeNotifications :=
        filter (fun n => negb (NotifStatus_eqb (Notification.status n) expired))
          notifications in
      NotifOk activeNotifications serverTime
  end.

(** *** submitAttendance *)

(** [haversine(a, b)] for a point [a] of the request, whose coordinates may
    be missing or not numbers: the distance is then [NaN]. *)
Definition haversine_number (a : option Q * option Q) (b : Q * Q) : JSNumber :=
  match a with
  | (Some latitude, Some longitude) => Num (haversine (latitude, longitude) b)
  | _ => NaN
  end.

(** Lines 150-151: [v ? v.trim().toLowerCase() : null]. *)
Definition normalize_beacon (v : option string) : option string :=
  match v with
  | Some s =>
      if JSString.truthy v
      then Some (JSString.toLowerCase (JSString.trim s))
      else None
  | None => None
  end.

(** Lines 149-170: the beacon check; [None] when it passes. *)
Definition beacon_check (configured received : option string)
  : option SubmitResponse :=
  let expectedBeaconId := normalize_beacon configured in
  let receivedBeaconId := normalize_beacon received in
  if negb (JSString.truthy expectedBeaconId) then Some Misconfigured
  else if negb (JSString.truthy receivedBeaconId)
          || negb (JSString.strict_eq receivedBeaconId expectedBeaconId)
  then Some (BeaconMismatch configured received)
  else None.

(** Lines 183-188: start of the class and end of the attendance window,
    from the reading [clock] of the clock at line 184. *)
Definition classStartTime (clock : Z) (startTime : Z * Z) : Z :=
  let (startHour, startMinute) := startTime in
  setHours tz clock startHour startMinute 0 0.

Definition attendanceWindowEnd (clock : Z) (startTime : Z * Z) : Z :=
  let start := classStartTime clock startTime in
  setMinutes tz start (getMinutes tz start + 15).

(** Lines 194-204: the timing check; [None] when it passes. *)
Definition timing_check (now clock : Z) (startTime : Z * Z)
  : option SubmitResponse :=
  let start := classStartTime clock startTime in
  if now <? start
  then Some (TooEarly (JSMath.ceil (inject_Z (start - now) / 60000)))
  else if attendanceWindowEnd clock startTime <? now
  then Some (WindowExpired
               (JSMath.floor (inject_Z (now - start) / 60000 - 15)))
  else None.

(** Lines 208-216: the record of today, if any. *)
Definition existing_today (store : Store) (today : CivilDate)
    (rollNumber className subject : string) : option Attendance.t :=
  let from := parseISODate today in
  let to := setDate tz (parseISODate today) (getDate tz (parseISODate today) + 1) in
  Attendance_findOne store rollNumber className subject from to.

(** The handler.  The clock is read twice: [now] at line 117 and [clock] at
    line 184 ([new Date()] again, of which [setHours] keeps the local
    calendar date). *)
Definition submitAttendance (store : Store) (now clock : Z) (body : Body.t)
  : Store * SubmitResponse :=
  let rollNumber := Body.rollNumber body in
  let classCode := Body.classCode body in
  match Student_findOne rollNumber with
  | None => (store, StudentNotFound)
  | Some student =>
  let today := toISODate now in
  match CreateClass_findOne classCode with
  | None => (store, ClassNotFound)
  | Some classDetails =>
  match AddClass_findOne (Body.className body) with
  | None => (store, LocationNotFound)
  | Some geoData =>
  let userLocation := (Body.latitude body, Body.longitude body) in
  let classLocation := (AddClass.latitude geoData, AddClass.longitude geoData) in
  let distance := haversine_number userLocation classLocation in
  if JSMath.gt distance (AddClass.radius geoData)
  then (store, OutOfRange (JSMath.round_number distance) (AddClass.radius geoData))
  else
  match beacon_check (AddClass.beaconId geoData)
          (match Body.beaconProximity body with
           | Some b => Body.beaconId b
           | None => None
           end) with
  | Some failure => (store, failure)
  | None =>
  if negb (code_strict_eq classCode (CreateClass.classCode classDetails))
  then (store, CodeMismatch (CreateClass.classCode classDetails))
  else
  match timing_check now clock (CreateClass.startTime classDetails) with
  | Some failure => (store, failure)
  | None =>
  match existing_today store today rollNumber
          (CreateClass.className classDetails)
          (CreateClass.subject classDetails) with
  | Some _ => (store, AlreadyMarked)
  | None =>
      let attendance := fun id =>
        Attendance.mk id rollNumber
          (CreateClass.className classDetails)
          (CreateClass.subject classDetails)
          (CreateClass.classCode classDetails)
          "Present" now in
      (Attendance.save store attendance,
       Success (CreateClass.className classDetails)
               (CreateClass.subject classDetails) today now)
  end end end end end end.

(** *** The validation gates, one by one

    Each gate of section 4.2 of the specification as a check of its own on
    the request: [Some e] when the gate fails with [e], [None] when it
    passes.  A gate that needs a document looked up by an earlier gate
    passes when that document is missing: the earlier gate reports it. *)

Definition Gate : Type := Store -> Z -> Z -> Body.t -> option SubmitResponse.

Definition received_beacon (body : Body.t) : option string :=
  match Body.beaconProximity body with
  | Some b => Body.beaconId b
  | None => None
  end.

Definition distance_to (body : Body.t) (geoData : AddClass.t) : JSNumber :=
  haversine_number (Body.latitude body, Body.longitude body)
            (AddClass.latitude geoData, AddClass.longitude geoData).

Definition gate_student : Gate := fun _ _ _ body =>
  match Student_findOne (Body.rollNumber body) with
  | None => Some StudentNotFound
  | Some _ => None
  end.

Definition gate_class : Gate := fun _ _ _ body =>
  match CreateClass_findOne (Body.classCode body) with
  | None => Some ClassNotFound
  | Some _ => None
  end.

Definition gate_location : Gate := fun _ _ _ body =>
  match AddClass_findOne (Body.className body) with
  | None => Some LocationNotFound
  | Some _ => None
  end.

Definition gate_geofence : Gate := fun _ _ _ body =>
  match AddClass_findOne (Body.className body) with
  | Some geoData =>
      if JSMath.gt (distance_to body geoData) (AddClass.radius geoData)
      then Some (OutOfRange (JSMath.round_number (distance_to body geoData))
                            (AddClass.radius geoData))
      else None
  | None => None
  end.

Definition gate_beacon : Gate := fun _ _ _ body =>
  match AddClass_findOne (Body.className body) with
  | Some geoData => beacon_check (AddClass.beaconId geoData) (received_beacon body)
  | None => None
  end.

Definition gate_code : Gate := fun _ _ _ body =>
  match CreateClass_findOne (Body.classCode body) with
  | Some classDetails =>
      if code_strict_eq (Body.classCode body) (CreateClass.classCode classDetails)
      then None
      else Some (CodeMismatch (CreateClass.classCode classDetails))
  | None => None
  end.

Definition gate_timing : Gate := fun _ now clock body =>
  match CreateClass_findOne (Body.classCode body) with
  | Some classDetails => timing_check now clock (CreateClass.startTime classDetails)
  | None => None
  end.

Definition gate_duplicate : Gate := fun store now _ body =>
  match CreateClass_findOne (Body.classCode body) with
  | Some classDetails =>
      match existing_today store (toISODate now) (Body.rollNumber body)
              (CreateClass.className classDetails)
              (CreateClass.subject classDetails) with
      | Some _ => Some AlreadyMarked
      | None => None
      end
  | None => None
  end.

(** The gates in the order of the specification. *)
Definition gates : list Gate :=
  [gate_student; gate_class; gate_location; gate_geofence;
   gate_beacon; gate_code; gate_timing; gate_duplicate].

(** The gates before the timing gate. *)
Definition gates_before_timing : list Gate :=
  [gate_student; gate_class; gate_location; gate_geofence;
   gate_beacon; gate_code].

(** The gates before the duplicate check. *)
Definition gates_before_duplicate : list Gate :=
  gates_before_timing ++ [gate_timing].

(** The failure of the first gate of [gs] that fails. *)
Fixpoint first_failure (gs : list Gate) (store : Store) (now clock : Z)
    (body : Body.t) : option SubmitResponse :=
  match gs with
  | [] => None
  | g :: rest =>
      match g store now clock body with
      | Some e => Some e
      | None => first_failure rest store now clock body
      end
  end.

(** The record the commit step inserts for class [classDetails]. *)
Definition present_record (id : nat) (now : Z) (body : Body.t)
    (classDetails : CreateClass.t) : Attendance.t :=
  Attendance.mk id (Body.rollNumber body)
    (CreateClass.className classDetails)
    (CreateClass.subject classDetails)
    (CreateClass.classCode classDetails)
    "Present" now.

(** The three lookups of the handler succeed. *)
Definition found (body : Body.t) (student : Student.t)
    (classDetails : CreateClass.t) (geoData : AddClass.t) : Prop :=
  Student_findOne (Body.rollNumber body) = Some student /\
  CreateClass_findOne (Body.classCode body) = Some classDetails /\
  AddClass_findOne (Body.className body) = Some geoData.

(** *** getAttendanceHistory *)

Definition getAttendanceHistory (store : Store) (rollNumber : string)
  : HistoryResponse :=
  match Student_findOne rollNumber with
  | None => HistStudentNotFound
  | Some _ =>
      let attendanceHistory := Attendance_find store rollNumber in
      HistOk (map (fun record =>
                HistoryEntry.mk
                  (Attendance.className record)
                  (Attendance.subject record)
                  (Attendance.status record)
                  (civil_from_days (Day (LocalTime tz (Attendance.time record))))
                  (HourFromTime (LocalTime tz (Attendance.time record)),
                   MinFromTime (LocalTime tz (Attendance.time record))))
                attendanceHistory)
  end.

(** *** Sequential execution *)

(** A request together with the readings of the clock while it is
    handled. *)
Inductive Request : Type :=
| GetNotifications (now : Z) (rollNumber : string)
| SubmitAttendance (now clock : Z) (body : Body.t)
| GetAttendanceHistory (rollNumber : string).

Inductive Response : Type :=
| Notifications (r : NotifResponse)
| Submitted (r : SubmitResponse)
| History (r : HistoryResponse).

(** One request against the store: the store afterwards and the response. *)
Definition handle (store : Store) (rq : Request) : Store * Response :=
  match rq with
  | GetNotifications now rollNumber =>
      (store, Notifications (fetchNotifications store now rollNumber))
  | SubmitAttendance now clock body =>
      let (store', r) := submitAttendance store now clock body in
      (store', Submitted r)
  | GetAttendanceHistory rollNumber =>
      (store, History (getAttendanceHistory store rollNumber))
  end.

(** Requests handled one after the other. *)
Fixpoint run (store : Store) (rqs : list Request) : Store :=
  match rqs with
  | [] => store
  | rq :: rest => run (fst (handle store rq)) rest
  end.

End Controller.

(* ------------------------------------------------------------------------- *)
(** ** Properties of the store and of the class schedule *)

(** The records of a student for a class and a subject on a calendar day;
    the day of a record is the UTC date of its timestamp, the date
    [submitAttendance] calls [today]. *)
Definition records_of (store : Store) (rollNumber className subject : string)
    (day : JSDate.CivilDate) : list Attendance.t :=
  filter (fun a => String.eqb (Attendance.rollNumber a) rollNumber
                   && String.eqb (Attendance.className a) className
                   && String.eqb (Attendance.subject a) subject
                   && JSDate.CivilDate_eqb (JSDate.toISODate (Attendance.time a)) day)
         store.

(** At most one record per student, class name, subject and UTC date of the
    timestamp.  The UTC date is the day of the handler's own duplicate
    lookup; it is not the calendar day of Asia/Kolkata, the zone
    [fetchNotifications] works in. *)
Definition one_record_per_utc_date (store : Store) : Prop :=
  forall rollNumber className subject day,
    (List.length (records_of store rollNumber className subject day) <= 1)%nat.

(** The schedule with the stored date of every class replaced. *)
Definition with_date (d : JSDate.CivilDate) (c : CreateClass.t) : CreateClass.t :=
  CreateClass.mk (CreateClass.className c) (CreateClass.subject c)
    (CreateClass.teacherName c) d (CreateClass.day c)
    (CreateClass.startTime c) (CreateClass.endTime c)
    (CreateClass.classCode c) (CreateClass.year c) (CreateClass.branch c).

Definition redate (f : CreateClass.t -> JSDate.CivilDate) (db : DB) : DB :=
  mkDB (students db) (map (fun c => with_date (f c) c) (classes db)) (locations db).

Definition is_Some {A : Type} (o : option A) : bool :=
  match o with
  | Some _ => true
  | None => false
  end.

(** First match of a list of guarded results, with a default. *)
Fixpoint first_match {A : Type} (cases : list (bool * A)) (default : A) : A :=
  match cases with
  | [] => default
  | (cond, v) :: rest => if cond then v else first_match rest default
  end.

(* ------------------------------------------------------------------------- *)
(** ** A sample deployment, used to exercise the theorems *)

Module Sample.
Local Open Scope string_scope.

(** A distance that grows with the difference of the coordinates (about
    111 km per degree). *)
Definition haversine (a b : Q * Q) : Q :=
  ((Qabs (fst a - fst b) + Qabs (snd a - snd b)) * 111320)%Q.

(** The regular expression of a pattern without special characters:
    equality up to the case of letters. *)
Definition RegExp_i (pattern s : string) : bool :=
  String.eqb (JSString.toLowerCase pattern) (JSString.toLowerCase s).

Definition student : Student.t := Student.mk "21CS001" "Asha" 2 "CSE".

(** A class of 2024-01-02, 09:00 to 10:00. *)
Definition class : CreateClass.t :=
  CreateClass.mk "CS201" "Algorithms" "Dr. Rao" (JSDate.mkDate 2024 1 2)
    "Tuesday" (9, 0) (10, 0) "X7Q2" "2" "CSE".

Definition location : AddClass.t :=
  AddClass.mk "cs201" (2861 # 100) (7720 # 100) 50 (Some " ABC123 ").

Definition db : DB := mkDB [student] [class] [location].

Definition body : Body.t :=
  Body.mk "21CS001" "CS201" (Some (2861 # 100)) (Some (7720 # 100))
    (Some (Body.mkBeacon (Some "abc123"))) (CodeText "X7Q2").

(** The same request from about 1.1 km away. *)
Definition far_body : Body.t :=
  Body.mk "21CS001" "CS201" (Some (2862 # 100)) (Some (7720 # 100))
    (Some (Body.mkBeacon (Some "abc123"))) (CodeText "X7Q2").

(** 2024-01-02, 09:00 in Asia/Kolkata (03:30 UTC). *)
Definition nine : Z := 1704166200000.
(** 09:05 the same day. *)
Definition nine_oh_five : Z := nine + 5 * JSDate.msPerMinute.
(** 2024-03-15, 09:05 in Asia/Kolkata. *)
Definition march_15 : Z := nine_oh_five + 73 * JSDate.msPerDay.
(** 2024-01-02, 02:00 in Asia/Kolkata: 2024-01-01, 20:30 UTC. *)
Definition small_hours : Z := 1704141000000.
End Sample.

(* ------------------------------------------------------------------------- *)
(** ** Further notions used by the properties of the handlers *)

(** The request with another class name. *)
Definition with_className (name : string) (body : Body.t) : Body.t :=
  Body.mk (Body.rollNumber body) name (Body.latitude body) (Body.longitude body)
    (Body.beaconProximity body) (Body.classCode body).

(** The request with another class code. *)
Definition with_classCode (code : CodeValue) (body : Body.t) : Body.t :=
  Body.mk (Body.rollNumber body) (Body.className body) (Body.latitude body)
    (Body.longitude body) (Body.beaconProximity body) code.

(** A time of day that lies within the day. *)
Definition within_day (hm : Z * Z) : Prop :=
  0 <= JSDate.MakeTime (fst hm) (snd hm) 0 0 < JSDate.msPerDay.

(** Two scheduled classes in the order of their start times. *)
Definition starts_before (a b : Z * Z) : Prop := hm_leb a b = true.

(** The history entry of a record, for a server in zone [tz]. *)
Definition history_entry (tz : Z) (record : Attendance.t) : HistoryEntry.t :=
  HistoryEntry.mk (Attendance.className record) (Attendance.subject record)
    (Attendance.status record)
    (JSDate.civil_from_days (JSDate.Day (JSDate.LocalTime tz (Attendance.time record))))
    (JSDate.HourFromTime (JSDate.LocalTime tz (Attendance.time record)),
     JSDate.MinFromTime (JSDate.LocalTime tz (Attendance.time record))).

(** The number of submissions among requests. *)
Fixpoint submissions (rqs : list Request) : nat :=
  match rqs with
  | [] => 0
  | SubmitAttendance _ _ _ :: rest => S (submissions rest)
  | _ :: rest => submissions rest
  end.

(** A second deployment: two classes, of which only the first has a
    configured location. *)
Module Sample2.
Local Open Scope string_scope.

(** Another class of 2024-01-02, 09:00 to 10:00. *)
Definition other_class : CreateClass.t :=
  CreateClass.mk "MA101" "Calculus" "Dr. Iyer" (JSDate.mkDate 2024 1 2)
    "Tuesday" (9, 0) (10, 0) "K9P4" "2" "CSE".

Definition db : DB :=
  mkDB [Sample.student] [Sample.class; other_class] [Sample.location].

(** The sample request with the code of the other class. *)
Definition crossed_body : Body.t := with_classCode (CodeText "K9P4") Sample.body.

(** A second session of the sample class the same day, 09:10 to 10:10, under
    a code of its own. *)
Definition second_session : CreateClass.t :=
  CreateClass.mk "CS201" "Algorithms" "Dr. Rao" (JSDate.mkDate 2024 1 2)
    "Tuesday" (9, 10) (10, 10) "R3T8" "2" "CSE".

Definition sessions_db : DB :=
  mkDB [Sample.student] [Sample.class; second_session] [Sample.location].

Definition second_body : Body.t := with_classCode (CodeText "R3T8") Sample.body.

(** The sample request with the operator object [{"$ne": null}] as class
    code. *)
Definition operator_body : Body.t := with_classCode (CodeNe None) Sample.body.

(** The sample class at dawn, 05:20 to 06:20 on 2024-01-02, and a request
    for it. *)
Definition dawn_class : CreateClass.t :=
  CreateClass.mk "CS201" "Algorithms" "Dr. Rao" (JSDate.mkDate 2024 1 2)
    "Tuesday" (5, 20) (6, 20) "D4WN" "2" "CSE".

Definition dawn_db : DB := mkDB [Sample.student] [dawn_class] [Sample.location].

Definition dawn_body : Body.t := with_classCode (CodeText "D4WN") Sample.body.

(** 2024-01-02, 05:25 in Asia/Kolkata: 2024-01-01, 23:55 UTC. *)
Definition first_try : Z := 1704153300000.
(** 2024-01-02, 05:32 in Asia/Kolkata: 2024-01-02, 00:02 UTC. *)
Definition second_try : Z := 1704153720000.

(** The sample request without coordinates. *)
Definition nowhere_body : Body.t :=
  Body.mk "21CS001" "CS201" None None
    (Some (Body.mkBeacon (Some "abc123"))) (CodeText "X7Q2").

(** 2024-01-02, 23:59:59.999 and 2024-01-03, 00:00:00.001 in Asia/Kolkata. *)
Definition before_midnight : Z := 1704220199999.
Definition after_midnight : Z := 1704220200001.
End Sample2.

(* ------------------------------------------------------------------------- *)
(** ** Facts on dates *)

Module JSDateFacts.
Import JSDate.

Example civil_epoch : civil_from_days 0 = mkDate 1970 1 1.
Proof. reflexivity. Qed.

Example civil_leap_day : civil_from_days 11016 = mkDate 2000 2 29.
Proof. reflexivity. Qed.

Example civil_end_of_year : civil_from_days 19722 = mkDate 2023 12 31.
Proof. reflexivity. Qed.

Example civil_before_epoch : civil_from_days (-1) = mkDate 1969 12 31.
Proof. reflexivity. Qed.

(** [MakeDay] undoes [civil_from_days]: a date text denotes one day. *)
Lemma MakeDay_civil_from_days z :
  MakeDay (cyear (civil_from_days z)) (cmonth (civil_from_days z))
          (cday (civil_from_days z)) = z.
Proof.
  unfold civil_from_days, MakeDay; cbn [cyear cmonth cday].
  set (z' := z + 719468).
  set (era := z' / 146097). set (doe := z' mod 146097).
  set (c := Z.min (doe / 36524) 3). set (doc := doe - c * 36524).
  set (q := doc / 1461). set (doq := doc - q * 1461).
  set (a := Z.min (doq / 365) 3). set (doy := doq - a * 365).
  set (mp := (5 * doy + 2) / 153).
  assert (Hdoe : 0 <= doe < 146097) by (apply Z.mod_pos_bound; lia).
  assert (Hz : z' = 146097 * era + doe) by (apply Z.div_mod; lia).
  assert (Hc : 0 <= c <= 3 /\ 0 <= doc <= 36524).
  { subst c doc. Z.to_euclidean_division_equations. lia. }
  assert (Hq : 0 <= q <= 24 /\ 0 <= doq <= 1460).
  { subst q doq. Z.to_euclidean_division_equations. lia. }
  assert (Ha : 0 <= a <= 3 /\ 0 <= doy <= 365).
  { subst a doy. Z.to_euclidean_division_equations. lia. }
  assert (Hmp : 0 <= mp <= 11).
  { subst mp. Z.to_euclidean_division_equations. lia. }
  assert (Edoc : doc = doe - c * 36524) by reflexivity.
  assert (Edoq : doq = doc - q * 1461) by reflexivity.
  assert (Edoy : doy = doq - a * 365) by reflexivity.
  clearbody mp doy a doq q doc c doe era.
  set (m := if mp <? 10 then mp + 3 else mp - 9).
  assert (Hm : (if 2 <? m then m - 3 else m + 9) = mp /\
               (if m <=? 2 then (if m <=? 2 then c * 100 + q * 4 + a + era * 400 + 1
                                 else c * 100 + q * 4 + a + era * 400) - 1
                else (if m <=? 2 then c * 100 + q * 4 + a + era * 400 + 1
                                 else c * 100 + q * 4 + a + era * 400))
               = c * 100 + q * 4 + a + era * 400).
  { subst m. destruct (mp <? 10) eqn:E.
    - apply Z.ltb_lt in E.
      replace (2 <? mp + 3) with true by (symmetry; apply Z.ltb_lt; lia).
      replace (mp + 3 <=? 2) with false by (symmetry; apply Z.leb_gt; lia).
      lia.
    - apply Z.ltb_ge in E.
      replace (2 <? mp - 9) with false by (symmetry; apply Z.ltb_ge; lia).
      replace (mp - 9 <=? 2) with true by (symmetry; apply Z.leb_le; lia).
      lia. }
  destruct Hm as [Hm1 Hm2]. rewrite Hm1, Hm2.
  set (y := c * 100 + q * 4 + a + era * 400).
  assert (Hera : y / 400 = era /\ y mod 400 = c * 100 + q * 4 + a).
  { subst y. Z.to_euclidean_division_equations. lia. }
  destruct Hera as [-> ->].
  assert (H4 : (c * 100 + q * 4 + a) / 4 = c * 25 + q /\
               (c * 100 + q * 4 + a) / 100 = c).
  { Z.to_euclidean_division_equations. lia. }
  destruct H4 as [-> ->].
  subst z'. lia.
Qed.

Lemma days_from_civil_from_days z : days_from_civil (civil_from_days z) = z.
Proof. unfold days_from_civil. apply MakeDay_civil_from_days. Qed.

Lemma civil_from_days_inj a b : civil_from_days a = civil_from_days b -> a = b.
Proof.
  intros H. rewrite <- (days_from_civil_from_days a), H.
  apply days_from_civil_from_days.
Qed.

Lemma CivilDate_eqb_eq a b : CivilDate_eqb a b = true <-> a = b.
Proof.
  destruct a as [y1 m1 d1], b as [y2 m2 d2]; unfold CivilDate_eqb; cbn.
  rewrite !andb_true_iff, !Z.eqb_eq. split.
  - intros [[-> ->] ->]. reflexivity.
  - intros H. injection H as -> -> ->. auto.
Qed.

Lemma CivilDate_eqb_refl a : CivilDate_eqb a a = true.
Proof. apply CivilDate_eqb_eq. reflexivity. Qed.

(** Two instants have the same UTC date exactly when they fall on the same
    day number. *)
Lemma toISODate_eq_iff s t : toISODate s = toISODate t <-> Day s = Day t.
Proof.
  unfold toISODate. split; [apply civil_from_days_inj | intros ->; reflexivity].
Qed.

(** [new Date(d.toISOString().split('T')[0])] is the UTC midnight before
    [d]. *)
Lemma parseISODate_toISODate t : parseISODate (toISODate t) = Day t * msPerDay.
Proof.
  unfold parseISODate, toISODate, MakeDate.
  rewrite days_from_civil_from_days. lia.
Qed.

Lemma MakeDay_succ y m dt : MakeDay y m (dt + 1) = MakeDay y m dt + 1.
Proof. unfold MakeDay. lia. Qed.

Lemma Day_TimeWithinDay t : Day t * msPerDay + TimeWithinDay t = t.
Proof.
  unfold Day, TimeWithinDay.
  pose proof (Z.div_mod t msPerDay) as H. unfold msPerDay in *. lia.
Qed.

(** [d.setDate(d.getDate() + 1)] moves [d] by 24 hours. *)
Lemma setDate_next_day tz t : setDate tz t (getDate tz t + 1) = t + msPerDay.
Proof.
  unfold setDate, getDate, UTC, LocalTime, MakeDate.
  rewrite MakeDay_succ, MakeDay_civil_from_days.
  pose proof (Day_TimeWithinDay (t + tz)). lia.
Qed.

(** An instant is made of its day, hour, minute, second and millisecond. *)
Lemma time_fields t :
  MakeDate (Day t)
    (MakeTime (HourFromTime t) (MinFromTime t) (SecFromTime t) (msFromTime t)) = t.
Proof.
  unfold MakeDate, MakeTime, Day, HourFromTime, MinFromTime, SecFromTime, msFromTime.
  unfold msPerDay, msPerHour, msPerMinute.
  change 86400000 with (1000 * 60 * 60 * 24).
  change 3600000 with (1000 * 60 * 60).
  change 60000 with (1000 * 60).
  rewrite <- !Z.div_div by lia.
  pose proof (Z.div_mod t 1000).
  pose proof (Z.div_mod (t / 1000) 60).
  pose proof (Z.div_mod (t / 1000 / 60) 60).
  pose proof (Z.div_mod (t / 1000 / 60 / 60) 24).
  lia.
Qed.

(** [d.setMinutes(d.getMinutes() + k)] moves [d] by [k] minutes. *)
Lemma setMinutes_add tz t k :
  setMinutes tz t (getMinutes tz t + k) = t + k * msPerMinute.
Proof.
  unfold setMinutes, getMinutes, UTC.
  pose proof (time_fields (LocalTime tz t)) as H.
  unfold MakeDate, MakeTime, LocalTime in *. lia.
Qed.

Lemma Day_bounds t : Day t * msPerDay <= t < Day t * msPerDay + msPerDay.
Proof. unfold Day, msPerDay. Z.to_euclidean_division_equations. lia. Qed.

Lemma Day_unique t d : d * msPerDay <= t < d * msPerDay + msPerDay -> Day t = d.
Proof. unfold Day, msPerDay. Z.to_euclidean_division_equations. lia. Qed.

(** The half-open interval of a day number holds the instants of that
    day. *)
Lemma in_day_iff s t :
  (Day t * msPerDay <=? s) && (s <? Day t * msPerDay + msPerDay) = true
  <-> Day s = Day t.
Proof.
  rewrite andb_true_iff, Z.leb_le, Z.ltb_lt. split.
  - intros H. apply Day_unique. lia.
  - intros <-. apply Day_bounds.
Qed.

End JSDateFacts.

(* ------------------------------------------------------------------------- *)
(** ** Facts on rounding *)

Module JSMathFacts.

Lemma gt_true_iff a b : JSMath.gt (Num a) b = true <-> (b < a)%Q.
Proof.
  unfold JSMath.gt. rewrite negb_true_iff. split.
  - intros H. apply Qnot_le_lt. intros Hle.
    apply Qle_bool_iff in Hle. congruence.
  - intros H. destruct (Qle_bool a b) eqn:E; [|reflexivity].
    apply Qle_bool_iff in E. exfalso. exact (Qlt_not_le _ _ H E).
Qed.

Lemma gt_false_iff a b : JSMath.gt (Num a) b = false <-> (a <= b)%Q.
Proof.
  unfold JSMath.gt. rewrite negb_false_iff. apply Qle_bool_iff.
Qed.

(** [Math.floor(x / 60000 - 15)] on an integer [x]. *)
Lemma floor_minutes_late x :
  JSMath.floor (inject_Z x / 60000 - 15) = x / 60000 - 15.
Proof.
  unfold JSMath.floor, Qfloor, Qminus, Qplus, Qdiv, Qmult, Qinv, Qopp, inject_Z.
  cbn [Qnum Qden].
  change (Z.pos (1 * 60000 * 1)) with 60000.
  change (Z.pos (1 * 60000)) with 60000.
  replace (x * 1 * 1 + - (15) * 60000) with (x + (-15) * 60000) by lia.
  rewrite Z.div_add by lia. lia.
Qed.

(** [Math.ceil(x / 60000)] on an integer [x]. *)
Lemma ceil_minutes x :
  JSMath.ceil (inject_Z x / 60000) = - ((- x) / 60000).
Proof.
  unfold JSMath.ceil, Qceiling, Qfloor, Qdiv, Qmult, Qinv, Qopp, inject_Z.
  cbn [Qnum Qden].
  change (Z.pos (1 * 60000)) with 60000.
  replace (- (x * 1)) with (- x) by lia. reflexivity.
Qed.

(** The ceiling is the least number of whole minutes that covers [x]
    milliseconds. *)
Lemma ceil_minutes_spec x :
  let n := JSMath.ceil (inject_Z x / 60000) in
  (n - 1) * 60000 < x <= n * 60000.
Proof.
  cbv zeta. rewrite ceil_minutes.
  Z.to_euclidean_division_equations. lia.
Qed.

End JSMathFacts.

(* ------------------------------------------------------------------------- *)
(** ** Facts on strings *)

Module JSStringFacts.
Import JSString.
Local Open Scope string_scope.

Lemma trimStart_blank w : isBlank w = true -> trimStart w = EmptyString.
Proof.
  induction w as [|c w IH]; cbn; [reflexivity|].
  intros H. apply andb_true_iff in H as [Hc Hw]. rewrite Hc. auto.
Qed.

Lemma trimEnd_blank w : isBlank w = true -> trimEnd w = EmptyString.
Proof.
  induction w as [|c w IH]; cbn; [reflexivity|].
  intros H. apply andb_true_iff in H as [Hc Hw]. rewrite (IH Hw), Hc. reflexivity.
Qed.

Lemma trimEnd_app_blank s w : isBlank w = true -> trimEnd (s ++ w) = trimEnd s.
Proof.
  intros Hw. induction s as [|c s IH]; cbn.
  - apply trimEnd_blank, Hw.
  - rewrite IH. reflexivity.
Qed.

(** White space after a string does not change its trimmed form. *)
Lemma trim_app_blank s w : isBlank w = true -> trim (s ++ w) = trim s.
Proof.
  intros Hw. unfold trim. induction s as [|c s IH].
  - cbn. rewrite (trimStart_blank _ Hw). reflexivity.
  - cbn [append trimStart]. destruct (isWhiteSpace c); [exact IH|].
    exact (trimEnd_app_blank (String c s) w Hw).
Qed.

(** Nor does white space before it. *)
Lemma trim_blank_app w s : isBlank w = true -> trim (w ++ s) = trim s.
Proof.
  unfold trim. induction w as [|c w IH]; cbn; [reflexivity|].
  intros H. apply andb_true_iff in H as [Hc Hw]. rewrite Hc. auto.
Qed.

Lemma trim_padded w1 s w2 :
  isBlank w1 = true -> isBlank w2 = true -> trim (w1 ++ s ++ w2) = trim s.
Proof.
  intros H1 H2. rewrite (trim_blank_app _ _ H1). apply trim_app_blank, H2.
Qed.

Lemma toLower_toUpper_char c : toLowerChar (toUpperChar c) = toLowerChar c.
Proof. destruct c as [[] [] [] [] [] [] [] []]; reflexivity. Qed.

Lemma toLower_toLower_char c : toLowerChar (toLowerChar c) = toLowerChar c.
Proof. destruct c as [[] [] [] [] [] [] [] []]; reflexivity. Qed.

Lemma isWhiteSpace_toUpper c : isWhiteSpace (toUpperChar c) = isWhiteSpace c.
Proof. destruct c as [[] [] [] [] [] [] [] []]; reflexivity. Qed.

Lemma isWhiteSpace_toLower c : isWhiteSpace (toLowerChar c) = isWhiteSpace c.
Proof. destruct c as [[] [] [] [] [] [] [] []]; reflexivity. Qed.

Section MapChars.
Variable f : ascii -> ascii.
Hypothesis f_space : forall c, isWhiteSpace (f c) = isWhiteSpace c.

Lemma trimStart_map s : trimStart (map_chars f s) = map_chars f (trimStart s).
Proof.
  induction s as [|c s IH]; cbn; [reflexivity|].
  rewrite f_space. destruct (isWhiteSpace c); [exact IH | reflexivity].
Qed.

Lemma trimEnd_map s : trimEnd (map_chars f s) = map_chars f (trimEnd s).
Proof.
  induction s as [|c s IH]; cbn; [reflexivity|].
  rewrite IH, f_space. destruct (trimEnd s); cbn; [|reflexivity].
  destruct (isWhiteSpace c); reflexivity.
Qed.

Lemma trim_map s : trim (map_chars f s) = map_chars f (trim s).
Proof. unfold trim. rewrite trimStart_map, trimEnd_map. reflexivity. Qed.
End MapChars.

Lemma map_chars_compose f g s :
  map_chars f (map_chars g s) = map_chars (fun c => f (g c)) s.
Proof. induction s as [|c s IH]; cbn; [reflexivity|]. rewrite IH. reflexivity. Qed.

Lemma map_chars_ext f g s :
  (forall c, f c = g c) -> map_chars f s = map_chars g s.
Proof.
  intros H. induction s as [|c s IH]; cbn; [reflexivity|]. rewrite H, IH. reflexivity.
Qed.

(** The trimmed lower-case form does not see the case of letters. *)
Lemma normal_form_toUpperCase s :
  toLowerCase (trim (toUpperCase s)) = toLowerCase (trim s).
Proof.
  unfold toLowerCase, toUpperCase.
  rewrite (trim_map _ isWhiteSpace_toUpper), map_chars_compose.
  apply map_chars_ext, toLower_toUpper_char.
Qed.

Lemma normal_form_toLowerCase s :
  toLowerCase (trim (toLowerCase s)) = toLowerCase (trim s).
Proof.
  unfold toLowerCase.
  rewrite (trim_map _ isWhiteSpace_toLower), map_chars_compose.
  apply map_chars_ext, toLower_toLower_char.
Qed.

(** Nor white space around the string. *)
Lemma normal_form_padded w1 s w2 :
  isBlank w1 = true -> isBlank w2 = true ->
  toLowerCase (trim (w1 ++ s ++ w2)) = toLowerCase (trim s).
Proof. intros H1 H2. rewrite (trim_padded _ _ _ H1 H2). reflexivity. Qed.

Lemma truthy_Some s : truthy (Some s) = true <-> s <> EmptyString.
Proof.
  cbn. rewrite negb_true_iff. split.
  - intros H ->. discriminate.
  - intros H. destruct (String.eqb_spec s EmptyString); congruence.
Qed.

Lemma strict_eq_Some x y : strict_eq (Some x) (Some y) = true <-> x = y.
Proof. cbn. apply String.eqb_eq. Qed.

End JSStringFacts.

(* ------------------------------------------------------------------------- *)
(** ** The validation pipeline of [submitAttendance] *)

Section PipelineFacts.
Import JSDate.

Variable haversine : Q * Q -> Q * Q -> Q.
Variable RegExp_i : string -> string -> bool.
Variable tz : Z.
Variable db : DB.

Local Abbreviation submit := (submitAttendance haversine RegExp_i tz db).
Local Abbreviation all_gates := (gates haversine RegExp_i tz db).
Local Abbreviation early_gates := (gates_before_timing haversine RegExp_i db).
Local Abbreviation is_found := (found RegExp_i db).

(** A lookup by class code returns a class whose code answers the query; for
    a submitted string that is a class with that very code. *)
Lemma CreateClass_findOne_query classCode c :
  CreateClass_findOne db classCode = Some c ->
  code_query classCode (CreateClass.classCode c) = true.
Proof.
  unfold CreateClass_findOne. intros H.
  apply find_some in H as [_ H]. exact H.
Qed.

Lemma CreateClass_findOne_code text c :
  CreateClass_findOne db (CodeText text) = Some c -> CreateClass.classCode c = text.
Proof.
  intros H. apply CreateClass_findOne_query in H. apply String.eqb_eq in H. exact H.
Qed.

(** The strict comparison of gate 6 holds exactly for a submitted string
    equal to the stored code. *)
Lemma code_strict_eq_iff q stored :
  code_strict_eq q stored = true <-> q = CodeText stored.
Proof.
  destruct q as [s|n|v]; cbn; split; try discriminate.
  - intros H. apply String.eqb_eq in H. congruence.
  - intros [= ->]. apply String.eqb_refl.
Qed.

Lemma code_strict_eq_found text c :
  CreateClass_findOne db (CodeText text) = Some c ->
  code_strict_eq (CodeText text) (CreateClass.classCode c) = true.
Proof.
  intros H. apply code_strict_eq_iff. f_equal. symmetry.
  exact (CreateClass_findOne_code _ _ H).
Qed.

(** The handler is the in-order run of the gates followed by the commit. *)
Lemma submitAttendance_pipeline store now clock body :
  submit store now clock body =
  match first_failure all_gates store now clock body with
  | Some e => (store, e)
  | None =>
      match CreateClass_findOne db (Body.classCode body) with
      | Some c =>
          (store ++ [present_record (List.length store) now body c],
           Success (CreateClass.className c) (CreateClass.subject c)
                   (toISODate now) now)
      | None => (store, ClassNotFound)
      end
  end.
Proof.
  unfold submitAttendance, gates, first_failure.
  unfold gate_student, gate_class, gate_location, gate_geofence, gate_beacon,
    gate_code, gate_timing, gate_duplicate, received_beacon, distance_to,
    Attendance.save, present_record.
  destruct (Student_findOne db _); [|reflexivity].
  destruct (CreateClass_findOne db _); [|reflexivity].
  destruct (AddClass_findOne RegExp_i db _); [|reflexivity].
  destruct (JSMath.gt _ _); [reflexivity|].
  destruct (beacon_check _ _); [reflexivity|].
  destruct (code_strict_eq _ _); cbn [negb]; [|reflexivity].
  destruct (timing_check tz _ _ _); [reflexivity|].
  destruct (existing_today tz _ _ _ _ _); reflexivity.
Qed.

(** When every gate passes the class of the request exists. *)
Lemma all_pass_class store now clock body :
  first_failure all_gates store now clock body = None ->
  exists c, CreateClass_findOne db (Body.classCode body) = Some c.
Proof.
  unfold gates, first_failure, gate_student, gate_class.
  destruct (Student_findOne db _); [|discriminate].
  destruct (CreateClass_findOne db _) as [c|]; [|discriminate].
  intros _. exists c. reflexivity.
Qed.

Lemma beacon_check_failure configured received e :
  beacon_check configured received = Some e ->
  e = Misconfigured \/ e = BeaconMismatch configured received.
Proof.
  unfold beacon_check.
  destruct (negb (JSString.truthy (normalize_beacon configured))).
  - intros [= <-]. left. reflexivity.
  - destruct (_ || _); [|discriminate]. intros [= <-]. right. reflexivity.
Qed.

Lemma timing_check_failure now clock startTime e :
  timing_check tz now clock startTime = Some e ->
  (exists n, e = TooEarly n) \/ (exists n, e = WindowExpired n).
Proof.
  unfold timing_check.
  destruct (now <? _).
  - intros [= <-]. left. eexists. reflexivity.
  - destruct (_ <? now); [|discriminate].
    intros [= <-]. right. eexists. reflexivity.
Qed.

(** A failing gate never answers with a success. *)
Lemma first_failure_not_success store now clock body e :
  first_failure all_gates store now clock body = Some e -> is_success e = false.
Proof.
  unfold gates, first_failure.
  unfold gate_student, gate_class, gate_location, gate_geofence, gate_beacon,
    gate_code, gate_timing, gate_duplicate.
  destruct (Student_findOne db _); [|intros [= <-]; reflexivity].
  destruct (CreateClass_findOne db _); [|intros [= <-]; reflexivity].
  destruct (AddClass_findOne RegExp_i db _); [|intros [= <-]; reflexivity].
  destruct (JSMath.gt _ _); [intros [= <-]; reflexivity|].
  destruct (beacon_check _ _) eqn:Eb.
  { intros [= <-]. apply beacon_check_failure in Eb as [-> | ->]; reflexivity. }
  destruct (code_strict_eq _ _); [|intros [= <-]; reflexivity].
  destruct (timing_check tz _ _ _) eqn:Et.
  { intros [= <-].
    apply timing_check_failure in Et as [[n ->] | [n ->]]; reflexivity. }
  destruct (existing_today tz _ _ _ _ _); [|discriminate].
  intros [= <-]. reflexivity.
Qed.

(** Gates 1 to 3 pass exactly when the three lookups succeed; the later
    gates then read the documents found. *)
Lemma submitAttendance_found store now clock body s c g :
  is_found body s c g ->
  submit store now clock body =
  if JSMath.gt (distance_to haversine body g) (AddClass.radius g)
  then (store, OutOfRange (JSMath.round_number (distance_to haversine body g))
                          (AddClass.radius g))
  else
    match beacon_check (AddClass.beaconId g) (received_beacon body) with
    | Some failure => (store, failure)
    | None =>
        if code_strict_eq (Body.classCode body) (CreateClass.classCode c)
        then
          match timing_check tz now clock (CreateClass.startTime c) with
          | Some failure => (store, failure)
          | None =>
              match existing_today tz store (toISODate now) (Body.rollNumber body)
                      (CreateClass.className c) (CreateClass.subject c) with
              | Some _ => (store, AlreadyMarked)
              | None =>
                  (store ++ [present_record (List.length store) now body c],
                   Success (CreateClass.className c) (CreateClass.subject c)
                           (toISODate now) now)
              end
          end
        else (store, CodeMismatch (CreateClass.classCode c))
    end.
Proof.
  intros (Hs & Hc & Hg).
  unfold submitAttendance. rewrite Hs, Hc, Hg.
  fold (received_beacon body). fold (distance_to haversine body g).
  destruct (JSMath.gt _ _); [reflexivity|].
  destruct (beacon_check _ _); [reflexivity|].
  destruct (code_strict_eq _ _); reflexivity.
Qed.

(** The three lookups are made in the order student, class, location, and
    the first that finds nothing ends the request. *)
Lemma submitAttendance_not_found store now clock body :
  (Student_findOne db (Body.rollNumber body) = None ->
   submit store now clock body = (store, StudentNotFound)) /\
  (Student_findOne db (Body.rollNumber body) <> None ->
   CreateClass_findOne db (Body.classCode body) = None ->
   submit store now clock body = (store, ClassNotFound)) /\
  (Student_findOne db (Body.rollNumber body) <> None ->
   CreateClass_findOne db (Body.classCode body) <> None ->
   AddClass_findOne RegExp_i db (Body.className body) = None ->
   submit store now clock body = (store, LocationNotFound)).
Proof.
  unfold submitAttendance.
  destruct (Student_findOne db _); [|repeat split; congruence].
  destruct (CreateClass_findOne db _); [|repeat split; congruence].
  destruct (AddClass_findOne RegExp_i db _); repeat split; congruence.
Qed.

(** [first_failure] answers with the failure of a gate all of whose
    predecessors pass. *)
Lemma first_failure_Some gs store now clock body e :
  first_failure gs store now clock body = Some e <->
  exists k g, nth_error gs k = Some g /\ g store now clock body = Some e /\
    forall j g', (j < k)%nat -> nth_error gs j = Some g' ->
                 g' store now clock body = None.
Proof.
  induction gs as [|g0 rest IH]; cbn [first_failure].
  - split; [discriminate|]. intros (k & g & H & _). destruct k; discriminate.
  - destruct (g0 store now clock body) eqn:E0; split.
    + intros [= <-]. exists 0%nat, g0. repeat split; auto. intros j g' Hj. lia.
    + intros (k & g & Hk & Hg & Hbefore). destruct k as [|k].
      * cbn in Hk. injection Hk as <-. congruence.
      * specialize (Hbefore 0%nat g0 ltac:(lia) eq_refl). congruence.
    + intros H. apply IH in H as (k & g & Hk & Hg & Hbefore).
      exists (S k), g. repeat split; auto.
      intros [|j] g' Hj Hnth.
      * cbn in Hnth. injection Hnth as <-. exact E0.
      * apply (Hbefore j); [lia | exact Hnth].
    + intros (k & g & Hk & Hg & Hbefore). apply IH. destruct k as [|k].
      * cbn in Hk. injection Hk as <-. congruence.
      * exists k, g. repeat split; auto.
        intros j g' Hj Hnth. apply (Hbefore (S j)); [lia | exact Hnth].
Qed.

(** The [k]-th gate fails with the error of its own. *)
Lemma gate_error_specific k g store now clock body e :
  nth_error all_gates k = Some g ->
  g store now clock body = Some e ->
  issued_by e = S k.
Proof.
  unfold gates. intros Hk Hg.
  destruct k as [|[|[|[|[|[|[|[|k]]]]]]]]; cbn in Hk;
    [injection Hk as <-; revert Hg ..|destruct k; discriminate].
  - unfold gate_student. destruct (Student_findOne db _); [discriminate|].
    intros [= <-]. reflexivity.
  - unfold gate_class. destruct (CreateClass_findOne db _); [discriminate|].
    intros [= <-]. reflexivity.
  - unfold gate_location. destruct (AddClass_findOne RegExp_i db _); [discriminate|].
    intros [= <-]. reflexivity.
  - unfold gate_geofence. destruct (AddClass_findOne RegExp_i db _); [|discriminate].
    destruct (JSMath.gt _ _); [|discriminate]. intros [= <-]. reflexivity.
  - unfold gate_beacon. destruct (AddClass_findOne RegExp_i db _); [|discriminate].
    intros H. apply beacon_check_failure in H as [-> | ->]; reflexivity.
  - unfold gate_code. destruct (CreateClass_findOne db _); [|discriminate].
    destruct (code_strict_eq _ _); [discriminate|]. intros [= <-]. reflexivity.
  - unfold gate_timing. destruct (CreateClass_findOne db _); [|discriminate].
    intros H. apply timing_check_failure in H as [[n ->] | [n ->]]; reflexivity.
  - unfold gate_duplicate. destruct (CreateClass_findOne db _); [|discriminate].
    destruct (existing_today tz _ _ _ _ _); [|discriminate].
    intros [= <-]. reflexivity.
Qed.

(** C1.  [submitAttendance] evaluates the eight gates in the order student,
    class, location, geofence, beacon, class code, timing, duplicate: its
    response is the error of the first gate that fails, which is the error of
    that gate and of no other, and then the store is left as it was; when
    every gate passes exactly one record, with status Present and the
    timestamp [now], is appended and the success response carries the class
    name, the subject, today's date and the timestamp. *)
Theorem submitAttendance_gates_in_order store now clock body :
  let result := submit store now clock body in
  (forall e, first_failure all_gates store now clock body = Some e ->
     result = (store, e) /\ is_success e = false /\
     exists k g, nth_error all_gates k = Some g /\
       g store now clock body = Some e /\ issued_by e = S k /\
       forall j g', (j < k)%nat -> nth_error all_gates j = Some g' ->
                    g' store now clock body = None) /\
  (first_failure all_gates store now clock body = None ->
     exists c, CreateClass_findOne db (Body.classCode body) = Some c /\
       result =
       (store ++ [Attendance.mk (List.length store) (Body.rollNumber body)
                    (CreateClass.className c) (CreateClass.subject c)
                    (CreateClass.classCode c) "Present" now],
        Success (CreateClass.className c) (CreateClass.subject c)
                (toISODate now) now)) /\
  (is_success (snd result) = false -> fst result = store) /\
  (is_success (snd result) = true ->
     exists r, fst result = store ++ [r] /\
       Attendance.status r = "Present"%string /\ Attendance.time r = now).
Proof.
  cbv zeta. rewrite submitAttendance_pipeline.
  destruct (first_failure all_gates store now clock body) as [e|] eqn:E.
  - pose proof (first_failure_not_success _ _ _ _ _ E) as Hns.
    split; [|split; [|split]].
    + intros e' [= <-]. split; [reflexivity|]. split; [exact Hns|].
      apply first_failure_Some in E as (k & g & Hk & Hg & Hbefore).
      exists k, g. split; [exact Hk|]. split; [exact Hg|].
      split; [exact (gate_error_specific _ _ _ _ _ _ _ Hk Hg) | exact Hbefore].
    + discriminate.
    + reflexivity.
    + cbn [snd]. congruence.
  - destruct (all_pass_class _ _ _ _ E) as [c Hc]. rewrite Hc.
    split; [|split; [|split]].
    + discriminate.
    + intros _. exists c. split; reflexivity.
    + cbn [snd is_success]. discriminate.
    + intros _. eexists. cbn [fst]. split; [reflexivity|]. split; reflexivity.
Qed.

(** C9, amended.  For a request whose class code is a string, the class is
    looked up by that very string, so the stored code the handler compares
    it with at the class-code gate is equal to it, and the request is never
    answered with the class-code error. *)
Theorem code_mismatch_unreachable store now clock body text expected :
  Body.classCode body = CodeText text ->
  (forall c, CreateClass_findOne db (Body.classCode body) = Some c ->
     CreateClass.classCode c = text) /\
  snd (submit store now clock body) <> CodeMismatch expected.
Proof.
  intros Htext. split.
  { intros c Hc. rewrite Htext in Hc. exact (CreateClass_findOne_code _ _ Hc). }
  unfold submitAttendance.
  destruct (Student_findOne db _); [|discriminate].
  destruct (CreateClass_findOne db _) as [c|] eqn:Hc; [|discriminate].
  destruct (AddClass_findOne RegExp_i db _); [|discriminate].
  destruct (JSMath.gt _ _); [discriminate|].
  destruct (beacon_check _ _) as [f|] eqn:Eb.
  { cbn [snd]. apply beacon_check_failure in Eb as [-> | ->]; discriminate. }
  rewrite Htext in Hc |- *. rewrite (code_strict_eq_found _ _ Hc).
  cbn [negb].
  destruct (timing_check tz _ _ _) as [f|] eqn:Et.
  { cbn [snd]. apply timing_check_failure in Et as [[n ->] | [n ->]]; discriminate. }
  destruct (existing_today tz _ _ _ _ _); discriminate.
Qed.

(** The beacon check passes exactly on two identifiers with the same
    non-empty trimmed lower-case form. *)
Lemma beacon_check_None_iff configured received :
  beacon_check configured received = None <->
  exists x y, configured = Some x /\ received = Some y /\
    JSString.toLowerCase (JSString.trim x) = JSString.toLowerCase (JSString.trim y) /\
    JSString.toLowerCase (JSString.trim x) <> EmptyString.
Proof.
  unfold beacon_check, normalize_beacon. split.
  - destruct configured as [x|]; [|discriminate].
    destruct (JSString.truthy (Some x)); [|discriminate].
    destruct (JSString.truthy (Some (JSString.toLowerCase (JSString.trim x)))) eqn:Ex;
      [|discriminate].
    cbn [negb]. destruct received as [y|]; [|discriminate].
    destruct (JSString.truthy (Some y)); [|discriminate].
    destruct (JSString.truthy (Some (JSString.toLowerCase (JSString.trim y))));
      [|discriminate].
    cbn [negb orb].
    destruct (JSString.strict_eq _ _) eqn:Eq; [|discriminate].
    intros _. exists x, y. repeat split.
    + symmetry. apply JSStringFacts.strict_eq_Some, Eq.
    + apply JSStringFacts.truthy_Some, Ex.
  - intros (x & y & -> & -> & Heq & Hne).
    assert (Hx : x <> EmptyString).
    { intros ->. apply Hne. reflexivity. }
    assert (Hy : y <> EmptyString).
    { intros ->. apply Hne. rewrite Heq. reflexivity. }
    rewrite (proj2 (JSStringFacts.truthy_Some x) Hx).
    rewrite (proj2 (JSStringFacts.truthy_Some y) Hy).
    rewrite (proj2 (JSStringFacts.truthy_Some _) Hne).
    rewrite <- Heq.
    rewrite (proj2 (JSStringFacts.truthy_Some _) Hne).
    rewrite (proj2 (JSStringFacts.strict_eq_Some _ _) eq_refl).
    reflexivity.
Qed.

(** C6.  The beacon gate compares the trimmed, lower-cased identifiers: it
    passes exactly when both are present and have the same non-empty
    normal form, so that [" ABC123 "] matches ["abc123"] and neither the case
    of letters nor surrounding white space matters; without a configured
    identifier it answers Misconfigured; with one, a missing or different
    received identifier is answered with BeaconMismatch; and a request that
    reaches the gate gets the answer of the gate. *)
Theorem beacon_gate_normalizes :
  beacon_check (Some " ABC123 "%string) (Some "abc123"%string) = None /\
  (forall configured received,
     beacon_check configured received = None <->
     exists x y, configured = Some x /\ received = Some y /\
       JSString.toLowerCase (JSString.trim x)
       = JSString.toLowerCase (JSString.trim y) /\
       JSString.toLowerCase (JSString.trim x) <> EmptyString) /\
  (forall x y w1 w2,
     JSString.isBlank w1 = true -> JSString.isBlank w2 = true ->
     (beacon_check (Some x) (Some (w1 ++ JSString.toUpperCase y ++ w2)%string) = None
      <-> beacon_check (Some x) (Some y) = None) /\
     (beacon_check (Some (w1 ++ JSString.toUpperCase x ++ w2)%string) (Some y) = None
      <-> beacon_check (Some x) (Some y) = None)) /\
  (forall received, beacon_check None received = Some Misconfigured) /\
  (forall configured received,
     JSString.truthy (normalize_beacon configured) = true ->
     received = None \/ normalize_beacon received <> normalize_beacon configured ->
     beacon_check configured received = Some (BeaconMismatch configured received)) /\
  (forall store now clock body s c g failure,
     is_found body s c g ->
     JSMath.gt (distance_to haversine body g) (AddClass.radius g) = false ->
     beacon_check (AddClass.beaconId g) (received_beacon body) = Some failure ->
     submit store now clock body = (store, failure)).
Proof.
  split; [reflexivity|]. split; [exact beacon_check_None_iff|].
  split; [|split; [|split]].
  - intros x y w1 w2 H1 H2. rewrite !beacon_check_None_iff. split.
    + split.
      * intros (x' & y' & [= <-] & [= <-] & Heq & Hne).
        rewrite (JSStringFacts.normal_form_padded _ _ _ H1 H2) in Heq.
        rewrite JSStringFacts.normal_form_toUpperCase in Heq.
        exists x, y. auto.
      * intros (x' & y' & [= <-] & [= <-] & Heq & Hne).
        eexists _, _. split; [reflexivity|]. split; [reflexivity|].
        rewrite (JSStringFacts.normal_form_padded _ _ _ H1 H2).
        rewrite JSStringFacts.normal_form_toUpperCase. auto.
    + split.
      * intros (x' & y' & [= <-] & [= <-] & Heq & Hne).
        rewrite (JSStringFacts.normal_form_padded _ _ _ H1 H2) in Heq, Hne.
        rewrite JSStringFacts.normal_form_toUpperCase in Heq, Hne.
        exists x, y. auto.
      * intros (x' & y' & [= <-] & [= <-] & Heq & Hne).
        eexists _, _. split; [reflexivity|]. split; [reflexivity|].
        rewrite (JSStringFacts.normal_form_padded _ _ _ H1 H2).
        rewrite JSStringFacts.normal_form_toUpperCase. auto.
  - intros received. reflexivity.
  - intros configured received Ht Hr. unfold beacon_check. rewrite Ht. cbn [negb].
    destruct Hr as [-> | Hr]; [reflexivity|].
    destruct (JSString.truthy (normalize_beacon received)); [|reflexivity].
    cbn [negb orb].
    destruct (JSString.strict_eq _ _) eqn:Eq; [|reflexivity].
    exfalso. apply Hr.
    destruct (normalize_beacon received) as [a|], (normalize_beacon configured) as [b|];
      try discriminate.
    apply JSStringFacts.strict_eq_Some in Eq. congruence.
  - intros store now clock body s c g failure Hf Hd Hb.
    rewrite (submitAttendance_found _ _ _ _ _ _ _ Hf), Hd, Hb. reflexivity.
Qed.

(** A request reaches the timing gate when the three lookups succeed and
    the geofence and beacon checks pass. *)
Lemma early_gates_pass store now clock body :
  first_failure early_gates store now clock body = None ->
  exists s c g, is_found body s c g /\
    JSMath.gt (distance_to haversine body g) (AddClass.radius g) = false /\
    beacon_check (AddClass.beaconId g) (received_beacon body) = None.
Proof.
  unfold gates_before_timing, first_failure, found.
  unfold gate_student, gate_class, gate_location, gate_geofence, gate_beacon, gate_code.
  destruct (Student_findOne db _) as [s|] eqn:Hs; [|discriminate].
  destruct (CreateClass_findOne db _) as [c|] eqn:Hc; [|discriminate].
  destruct (AddClass_findOne RegExp_i db _) as [g|] eqn:Hg; [|discriminate].
  destruct (JSMath.gt _ _) eqn:Hd; [discriminate|].
  destruct (beacon_check _ _) eqn:Hb; [discriminate|].
  intros _. exists s, c, g. auto.
Qed.

(** It has then passed the class-code gate: its code is the stored one. *)
Lemma early_gates_code store now clock body c :
  first_failure early_gates store now clock body = None ->
  CreateClass_findOne db (Body.classCode body) = Some c ->
  code_strict_eq (Body.classCode body) (CreateClass.classCode c) = true.
Proof.
  unfold gates_before_timing, first_failure.
  unfold gate_student, gate_class, gate_location, gate_geofence, gate_beacon, gate_code.
  intros H Hc. rewrite Hc in H.
  destruct (Student_findOne db _); [|discriminate].
  destruct (AddClass_findOne RegExp_i db _); [|discriminate].
  destruct (JSMath.gt _ _); [discriminate|].
  destruct (beacon_check _ _); [discriminate|].
  destruct (code_strict_eq _ _); [reflexivity | discriminate].
Qed.

Lemma submitAttendance_at_timing store now clock body c :
  first_failure early_gates store now clock body = None ->
  CreateClass_findOne db (Body.classCode body) = Some c ->
  submit store now clock body =
  match timing_check tz now clock (CreateClass.startTime c) with
  | Some failure => (store, failure)
  | None =>
      match existing_today tz store (toISODate now) (Body.rollNumber body)
              (CreateClass.className c) (CreateClass.subject c) with
      | Some _ => (store, AlreadyMarked)
      | None =>
          (store ++ [present_record (List.length store) now body c],
           Success (CreateClass.className c) (CreateClass.subject c)
                   (toISODate now) now)
      end
  end.
Proof.
  intros H Hc. pose proof (early_gates_code _ _ _ _ _ H Hc) as Hcode.
  apply early_gates_pass in H as (s & c' & g & Hf & Hd & Hb).
  assert (c' = c) as -> by (destruct Hf as (_ & Hc' & _); congruence).
  rewrite (submitAttendance_found _ _ _ _ _ _ _ Hf), Hd, Hb, Hcode. reflexivity.
Qed.

(** The class starts on the local calendar day of the clock, at the stored
    hour and minute; the window ends 15 minutes later. *)
Lemma classStartTime_eq clock hm :
  classStartTime tz clock hm =
  MakeDate (Day (LocalTime tz clock)) (MakeTime (fst hm) (snd hm) 0 0) - tz.
Proof. destruct hm as [h m]. reflexivity. Qed.

Lemma attendanceWindowEnd_eq clock hm :
  attendanceWindowEnd tz clock hm = classStartTime tz clock hm + 15 * msPerMinute.
Proof. unfold attendanceWindowEnd. apply JSDateFacts.setMinutes_add. Qed.

Lemma timing_check_inside now clock hm :
  classStartTime tz clock hm <= now <= classStartTime tz clock hm + 15 * msPerMinute ->
  timing_check tz now clock hm = None.
Proof.
  intros H. unfold timing_check. rewrite attendanceWindowEnd_eq.
  replace (now <? classStartTime tz clock hm) with false
    by (symmetry; apply Z.ltb_ge; lia).
  replace (classStartTime tz clock hm + 15 * msPerMinute <? now) with false
    by (symmetry; apply Z.ltb_ge; lia).
  reflexivity.
Qed.

Lemma timing_check_early now clock hm :
  now < classStartTime tz clock hm ->
  timing_check tz now clock hm =
  Some (TooEarly (JSMath.ceil (inject_Z (classStartTime tz clock hm - now) / 60000))).
Proof.
  intros H. unfold timing_check.
  replace (now <? classStartTime tz clock hm) with true
    by (symmetry; apply Z.ltb_lt; lia).
  reflexivity.
Qed.

Lemma timing_check_late now clock hm :
  classStartTime tz clock hm + 15 * msPerMinute < now ->
  timing_check tz now clock hm =
  Some (WindowExpired ((now - classStartTime tz clock hm) / 60000 - 15)).
Proof.
  intros H. unfold timing_check. rewrite attendanceWindowEnd_eq.
  replace (now <? classStartTime tz clock hm) with false
    by (symmetry; apply Z.ltb_ge; unfold msPerMinute in H; lia).
  replace (classStartTime tz clock hm + 15 * msPerMinute <? now) with true
    by (symmetry; apply Z.ltb_lt; lia).
  rewrite JSMathFacts.floor_minutes_late. reflexivity.
Qed.

(** C3.  For a submission that reaches the timing gate, with [start] the
    start of the class and the window ending at [start] plus 15 minutes: at
    [now = start] and at [now = start + 15 min] (and anywhere between) the
    gate passes and the answer comes from the duplicate check or the commit;
    before [start] the answer is TooEarly with the number of minutes until the
    start, rounded up; after the end of the window it is WindowExpired with
    the whole minutes elapsed since the start, minus 15. *)
Theorem attendance_window_inclusive store now clock body c :
  first_failure early_gates store now clock body = None ->
  CreateClass_findOne db (Body.classCode body) = Some c ->
  let start := classStartTime tz clock (CreateClass.startTime c) in
  let response := snd (submit store now clock body) in
  let passes :=
    timing_check tz now clock (CreateClass.startTime c) = None /\
    (response = AlreadyMarked \/ is_success response = true) in
  attendanceWindowEnd tz clock (CreateClass.startTime c) = start + 15 * msPerMinute /\
  (now = start -> passes) /\
  (now = start + 15 * msPerMinute -> passes) /\
  (start <= now <= start + 15 * msPerMinute -> passes) /\
  (now < start ->
     exists n, response = TooEarly n /\
       (n - 1) * msPerMinute < start - now <= n * msPerMinute) /\
  (start + 15 * msPerMinute < now ->
     response = WindowExpired ((now - start) / msPerMinute - 15)).
Proof.
  intros Hearly Hc start response passes.
  assert (Hin : start <= now <= start + 15 * msPerMinute -> passes).
  { intros H. subst passes response.
    rewrite (submitAttendance_at_timing _ _ _ _ _ Hearly Hc).
    rewrite (timing_check_inside _ _ _ H). split; [reflexivity|].
    destruct (existing_today tz _ _ _ _ _); [left | right]; reflexivity. }
  split; [apply attendanceWindowEnd_eq|].
  split; [intros H; apply Hin; unfold msPerMinute in *; lia|].
  split; [intros H; apply Hin; unfold msPerMinute in *; lia|].
  split; [exact Hin|]. split.
  - intros H. subst response.
    rewrite (submitAttendance_at_timing _ _ _ _ _ Hearly Hc).
    rewrite (timing_check_early _ _ _ H). cbn [snd].
    eexists. split; [reflexivity|].
    apply (JSMathFacts.ceil_minutes_spec (start - now)).
  - intros H. subst response.
    rewrite (submitAttendance_at_timing _ _ _ _ _ Hearly Hc).
    rewrite (timing_check_late _ _ _ H). reflexivity.
Qed.

(** C5.  With the location of the class found and a distance that is a
    number: a distance above the allowed radius leaves the store unchanged
    and is no success, and once the student and the class are found the
    answer is OutOfRange with the distance, rounded to the meter, and the
    radius; a distance within the radius passes the geofence gate. *)
Theorem geofence_out_of_range store now clock body g distance :
  AddClass_findOne RegExp_i db (Body.className body) = Some g ->
  distance_to haversine body g = Num distance ->
  let result := submit store now clock body in
  ((AddClass.radius g < distance)%Q ->
     fst result = store /\ is_success (snd result) = false /\
     gate_geofence haversine RegExp_i db store now clock body
     = Some (OutOfRange (JSMath.round distance) (AddClass.radius g)) /\
     (inject_Z (JSMath.round distance) <= distance + (1 # 2)
      < inject_Z (JSMath.round distance) + 1)%Q /\
     forall s c, is_found body s c g ->
       result = (store, OutOfRange (JSMath.round distance) (AddClass.radius g))) /\
  ((distance <= AddClass.radius g)%Q ->
     gate_geofence haversine RegExp_i db store now clock body = None /\
     forall d r, snd result <> OutOfRange d r).
Proof.
  intros Hg Hnum result. split.
  - intros Hfar. apply JSMathFacts.gt_true_iff in Hfar.
    assert (Hres : forall s c, is_found body s c g ->
              result = (store, OutOfRange (JSMath.round distance) (AddClass.radius g))).
    { intros s c Hf. subst result.
      rewrite (submitAttendance_found _ _ _ _ _ _ _ Hf), Hnum, Hfar. reflexivity. }
    assert (Hgate : gate_geofence haversine RegExp_i db store now clock body
                    = Some (OutOfRange (JSMath.round distance) (AddClass.radius g))).
    { unfold gate_geofence. rewrite Hg, Hnum, Hfar. reflexivity. }
    assert (Hround : (inject_Z (JSMath.round distance) <= distance + (1 # 2)
                      < inject_Z (JSMath.round distance) + 1)%Q).
    { unfold JSMath.round. split; [apply Qfloor_le|].
      pose proof (Qlt_floor (distance + (1 # 2))) as H.
      rewrite inject_Z_plus in H. exact H. }
    assert (Hstore : fst result = store /\ is_success (snd result) = false).
    { destruct (Student_findOne db (Body.rollNumber body)) as [s|] eqn:Hs.
      - destruct (CreateClass_findOne db (Body.classCode body)) as [c|] eqn:Hc.
        + rewrite (Hres s c (conj Hs (conj Hc Hg))). split; reflexivity.
        + subst result. unfold submitAttendance. rewrite Hs, Hc. split; reflexivity.
      - subst result. unfold submitAttendance. rewrite Hs. split; reflexivity. }
    destruct Hstore as [Hst Hns].
    split; [exact Hst|]. split; [exact Hns|]. split; [exact Hgate|].
    split; [exact Hround | exact Hres].
  - intros Hnear. apply JSMathFacts.gt_false_iff in Hnear. split.
    + unfold gate_geofence. rewrite Hg, Hnum, Hnear. reflexivity.
    + intros d r. subst result. unfold submitAttendance.
      destruct (Student_findOne db _); [|discriminate].
      destruct (CreateClass_findOne db _) as [c|] eqn:Hc; [|discriminate].
      rewrite Hg. fold (distance_to haversine body g). rewrite Hnum, Hnear.
      destruct (beacon_check _ _) as [f|] eqn:Eb.
      { cbn [snd]. apply beacon_check_failure in Eb as [-> | ->]; discriminate. }
      destruct (negb _); [discriminate|].
      destruct (timing_check tz _ _ _) as [f|] eqn:Et.
      { cbn [snd]. apply timing_check_failure in Et as [[n ->] | [n ->]]; discriminate. }
      destruct (existing_today tz _ _ _ _ _); discriminate.
Qed.

(** *** The stored date of a class *)

Lemma find_map {A B : Type} (p : B -> bool) (g : A -> B) (l : list A) :
  find p (map g l) = option_map g (find (fun x => p (g x)) l).
Proof.
  induction l as [|x l IH]; cbn; [reflexivity|].
  destruct (p (g x)); [reflexivity | exact IH].
Qed.

Lemma CreateClass_findOne_redate f classCode :
  CreateClass_findOne (redate f db) classCode =
  option_map (fun c => with_date (f c) c) (CreateClass_findOne db classCode).
Proof.
  unfold CreateClass_findOne, redate. cbn [classes].
  rewrite (find_map (fun c => code_query classCode (CreateClass.classCode c))).
  reflexivity.
Qed.

Lemma submitAttendance_redate f store now clock body :
  submitAttendance haversine RegExp_i tz (redate f db) store now clock body =
  submit store now clock body.
Proof.
  unfold submitAttendance.
  change (Student_findOne (redate f db)) with (Student_findOne db).
  change (AddClass_findOne RegExp_i (redate f db)) with (AddClass_findOne RegExp_i db).
  rewrite CreateClass_findOne_redate.
  destruct (Student_findOne db _); [|reflexivity].
  destruct (CreateClass_findOne db _) as [c|]; reflexivity.
Qed.

(** An instant is inside the window of a class started on its local day
    exactly when its local time of day is inside the 15 minutes that follow
    the stored start time. *)
Lemma window_by_time_of_day now clock hm :
  Day (LocalTime tz clock) = Day (LocalTime tz now) ->
  (classStartTime tz clock hm <= now <= classStartTime tz clock hm + 15 * msPerMinute
   <-> MakeTime (fst hm) (snd hm) 0 0 <= TimeWithinDay (LocalTime tz now)
       <= MakeTime (fst hm) (snd hm) 0 0 + 15 * msPerMinute).
Proof.
  intros Hday. rewrite classStartTime_eq, Hday. unfold MakeDate.
  pose proof (JSDateFacts.Day_TimeWithinDay (LocalTime tz now)) as H.
  unfold LocalTime in *. lia.
Qed.

(** C10.  The timing gate places the start of the class on the current local
    calendar day of the server, at the stored hour and minute; replacing the
    stored dates of the classes changes no answer of the handler; and a
    submission that passes the other gates is accepted whenever the local
    time of day is within the 15 minutes that follow the stored start time,
    whatever the stored date of the class. *)
Theorem class_date_not_checked :
  (forall clock startTime,
     classStartTime tz clock startTime
     = UTC tz (MakeDate (Day (LocalTime tz clock))
                 (MakeTime (fst startTime) (snd startTime) 0 0))) /\
  (forall f store now clock body,
     submitAttendance haversine RegExp_i tz (redate f db) store now clock body
     = submit store now clock body) /\
  (forall store now clock body c,
     first_failure early_gates store now clock body = None ->
     CreateClass_findOne db (Body.classCode body) = Some c ->
     gate_duplicate tz db store now clock body = None ->
     Day (LocalTime tz clock) = Day (LocalTime tz now) ->
     let start_of_day := MakeTime (fst (CreateClass.startTime c))
                                  (snd (CreateClass.startTime c)) 0 0 in
     start_of_day <= TimeWithinDay (LocalTime tz now)
       <= start_of_day + 15 * msPerMinute ->
     submit store now clock body =
     (store ++ [present_record (List.length store) now body c],
      Success (CreateClass.className c) (CreateClass.subject c) (toISODate now) now)).
Proof.
  split; [intros; apply classStartTime_eq|].
  split; [intros; apply submitAttendance_redate|].
  intros store now clock body c Hearly Hc Hdup Hday start_of_day Hwin.
  rewrite (submitAttendance_at_timing _ _ _ _ _ Hearly Hc).
  rewrite timing_check_inside
    by (apply (window_by_time_of_day _ _ _ Hday); exact Hwin).
  unfold gate_duplicate in Hdup. rewrite Hc in Hdup.
  destruct (existing_today tz _ _ _ _ _); [discriminate | reflexivity].
Qed.

(** *** One record per UTC date *)

Lemma find_ext {A : Type} (p q : A -> bool) (l : list A) :
  (forall x, p x = q x) -> find p l = find q l.
Proof.
  intros H. induction l as [|x l IH]; cbn; [reflexivity|].
  rewrite H, IH. reflexivity.
Qed.

Lemma find_None_filter {A : Type} (p : A -> bool) (l : list A) :
  find p l = None <-> filter p l = [].
Proof.
  induction l as [|x l IH]; cbn; [tauto|].
  destruct (p x); [split; discriminate | exact IH].
Qed.

Lemma find_hd_filter {A : Type} (p : A -> bool) (l : list A) :
  find p l = hd_error (filter p l).
Proof.
  induction l as [|x l IH]; cbn; [reflexivity|].
  destruct (p x); [reflexivity | exact IH].
Qed.

(** The bounds of the duplicate lookup are the two UTC midnights around
    [now]. *)
Lemma today_bounds now :
  parseISODate (toISODate now) = Day now * msPerDay /\
  setDate tz (parseISODate (toISODate now))
    (getDate tz (parseISODate (toISODate now)) + 1) = Day now * msPerDay + msPerDay.
Proof.
  rewrite JSDateFacts.setDate_next_day, JSDateFacts.parseISODate_toISODate.
  split; reflexivity.
Qed.

(** The duplicate lookup returns the first of the records of the day. *)
Lemma existing_today_records store now rollNumber className subject :
  existing_today tz store (toISODate now) rollNumber className subject =
  hd_error (records_of store rollNumber className subject (toISODate now)).
Proof.
  unfold existing_today, Attendance_findOne, records_of.
  destruct (today_bounds now) as [-> ->].
  rewrite <- find_hd_filter. apply find_ext.
  intros a. rewrite <- andb_assoc. f_equal.
  apply eq_true_iff_eq. rewrite JSDateFacts.in_day_iff.
  rewrite JSDateFacts.CivilDate_eqb_eq. symmetry.
  apply JSDateFacts.toISODate_eq_iff.
Qed.

Lemma existing_today_None_iff store now rollNumber className subject :
  existing_today tz store (toISODate now) rollNumber className subject = None <->
  records_of store rollNumber className subject (toISODate now) = [].
Proof.
  rewrite existing_today_records.
  destruct (records_of _ _ _ _ _); cbn; split; intros H; try reflexivity; discriminate.
Qed.

Local Abbreviation gates_to_timing := (gates_before_duplicate haversine RegExp_i tz db).
Local Abbreviation do_handle := (handle haversine RegExp_i tz db).
Local Abbreviation do_run := (run haversine RegExp_i tz db).

Lemma records_of_app store r rollNumber className subject day :
  records_of (store ++ [r]) rollNumber className subject day =
  records_of store rollNumber className subject day
  ++ records_of [r] rollNumber className subject day.
Proof. apply filter_app. Qed.

Lemma records_of_own r :
  records_of [r] (Attendance.rollNumber r) (Attendance.className r)
    (Attendance.subject r) (toISODate (Attendance.time r)) = [r].
Proof.
  unfold records_of. cbn [filter].
  rewrite !String.eqb_refl, JSDateFacts.CivilDate_eqb_refl. reflexivity.
Qed.

(** Appending a record whose day holds no record of its student, class and
    subject keeps at most one record per day. *)
Lemma one_record_per_utc_date_append store r :
  one_record_per_utc_date store ->
  records_of store (Attendance.rollNumber r) (Attendance.className r)
    (Attendance.subject r) (toISODate (Attendance.time r)) = [] ->
  one_record_per_utc_date (store ++ [r]).
Proof.
  intros Hinv Hnone rollNumber className subject day.
  rewrite records_of_app, length_app.
  unfold records_of at 2. cbn [filter].
  destruct (_ && _) eqn:E.
  - apply andb_true_iff in E as [E Hd]. apply andb_true_iff in E as [E Hs].
    apply andb_true_iff in E as [Hr Hc].
    apply String.eqb_eq in Hr, Hc, Hs. apply JSDateFacts.CivilDate_eqb_eq in Hd.
    subst. rewrite Hnone. cbn. lia.
  - specialize (Hinv rollNumber className subject day). cbn. lia.
Qed.

(** A submission either leaves the store as it is and is no success, or
    passes every gate and appends the record of the class. *)
Lemma submitAttendance_cases store now clock body :
  (fst (submit store now clock body) = store /\
   is_success (snd (submit store now clock body)) = false) \/
  (exists c,
     CreateClass_findOne db (Body.classCode body) = Some c /\
     first_failure gates_to_timing store now clock body = None /\
     existing_today tz store (toISODate now) (Body.rollNumber body)
       (CreateClass.className c) (CreateClass.subject c) = None /\
     submit store now clock body =
     (store ++ [present_record (List.length store) now body c],
      Success (CreateClass.className c) (CreateClass.subject c) (toISODate now) now)).
Proof.
  rewrite submitAttendance_pipeline.
  destruct (first_failure all_gates store now clock body) as [e|] eqn:E.
  - left. split; [reflexivity|]. exact (first_failure_not_success _ _ _ _ _ E).
  - right. destruct (all_pass_class _ _ _ _ E) as [c Hc]. rewrite Hc.
    exists c. split; [reflexivity|].
    revert E. unfold gates, gates_before_duplicate, gates_before_timing.
    cbn [app first_failure].
    destruct (gate_student db store now clock body); [discriminate|].
    destruct (gate_class db store now clock body); [discriminate|].
    destruct (gate_location RegExp_i db store now clock body); [discriminate|].
    destruct (gate_geofence haversine RegExp_i db store now clock body); [discriminate|].
    destruct (gate_beacon RegExp_i db store now clock body); [discriminate|].
    destruct (gate_code db store now clock body); [discriminate|].
    destruct (gate_timing tz db store now clock body); [discriminate|].
    unfold gate_duplicate. rewrite Hc.
    destruct (existing_today tz _ _ _ _ _); [discriminate|].
    intros _. repeat split.
Qed.

(** The gates before the duplicate check do not read the store. *)
Lemma gates_to_timing_store store store' now clock body :
  first_failure gates_to_timing store' now clock body =
  first_failure gates_to_timing store now clock body.
Proof. reflexivity. Qed.

(** Those before the timing gate read neither the store nor the clock. *)
Lemma early_gates_request store store' now now' clock clock' body :
  first_failure early_gates store' now' clock' body =
  first_failure early_gates store now clock body.
Proof. reflexivity. Qed.

Lemma gates_to_timing_split store now clock body c :
  CreateClass_findOne db (Body.classCode body) = Some c ->
  (first_failure gates_to_timing store now clock body = None <->
   first_failure early_gates store now clock body = None /\
   timing_check tz now clock (CreateClass.startTime c) = None).
Proof.
  intros Hc. unfold gates_before_duplicate, gates_before_timing.
  cbn [app first_failure].
  destruct (gate_student db store now clock body); [split; [|intros []]; discriminate|].
  destruct (gate_class db store now clock body); [split; [|intros []]; discriminate|].
  destruct (gate_location RegExp_i db store now clock body);
    [split; [|intros []]; discriminate|].
  destruct (gate_geofence haversine RegExp_i db store now clock body);
    [split; [|intros []]; discriminate|].
  destruct (gate_beacon RegExp_i db store now clock body);
    [split; [|intros []]; discriminate|].
  destruct (gate_code db store now clock body); [split; [|intros []]; discriminate|].
  unfold gate_timing. rewrite Hc.
  destruct (timing_check tz now clock _); split; try discriminate; auto.
  intros []. discriminate.
Qed.

(** What a request that passes the gates before the duplicate check gets. *)
Lemma submitAttendance_at_duplicate store now clock body c :
  first_failure gates_to_timing store now clock body = None ->
  CreateClass_findOne db (Body.classCode body) = Some c ->
  submit store now clock body =
  match records_of store (Body.rollNumber body) (CreateClass.className c)
          (CreateClass.subject c) (toISODate now) with
  | _ :: _ => (store, AlreadyMarked)
  | [] =>
      (store ++ [present_record (List.length store) now body c],
       Success (CreateClass.className c) (CreateClass.subject c) (toISODate now) now)
  end.
Proof.
  intros H Hc. apply (gates_to_timing_split _ _ _ _ _ Hc) in H as [Hearly Ht].
  rewrite (submitAttendance_at_timing _ _ _ _ _ Hearly Hc), Ht.
  rewrite existing_today_records.
  destruct (records_of _ _ _ _ _); reflexivity.
Qed.

Lemma handle_preserves store rq :
  one_record_per_utc_date store -> one_record_per_utc_date (fst (do_handle store rq)).
Proof.
  intros Hinv. destruct rq as [now r | now clock body | r]; cbn [handle fst];
    [exact Hinv | | exact Hinv].
  destruct (submitAttendance_cases store now clock body)
    as [[Hst _] | (c & Hc & Hpass & Hnone & Heq)].
  - destruct (submit store now clock body) as [store' resp]. cbn [fst] in *.
    subst store'. exact Hinv.
  - rewrite Heq. cbn [fst]. apply one_record_per_utc_date_append; [exact Hinv|].
    apply existing_today_None_iff in Hnone. exact Hnone.
Qed.

Lemma run_preserves rqs : forall store,
  one_record_per_utc_date store -> one_record_per_utc_date (do_run store rqs).
Proof.
  induction rqs as [|rq rest IH]; intros store Hinv; cbn [run]; [exact Hinv|].
  apply IH, handle_preserves, Hinv.
Qed.

Lemma handle_appends store rq :
  exists added, fst (do_handle store rq) = store ++ added /\ (List.length added <= 1)%nat.
Proof.
  destruct rq as [now r | now clock body | r]; cbn [handle fst];
    try (exists []; rewrite app_nil_r; split; [reflexivity | cbn; lia]).
  destruct (submitAttendance_cases store now clock body)
    as [[Hst _] | (c & Hc & Hpass & Hnone & Heq)].
  - destruct (submit store now clock body) as [store' resp]. cbn [fst] in *.
    subst store'. exists []. rewrite app_nil_r. split; [reflexivity | cbn; lia].
  - rewrite Heq. cbn [fst]. eexists. split; [reflexivity | cbn; lia].
Qed.

(** After a success, the same request on the same calendar day finds the
    record just inserted. *)
Lemma resubmission store now clock body :
  is_success (snd (submit store now clock body)) = true ->
  exists c r,
    CreateClass_findOne db (Body.classCode body) = Some c /\
    fst (submit store now clock body) = store ++ [r] /\
    timing_check tz now clock (CreateClass.startTime c) = None /\
    forall now' clock', toISODate now' = toISODate now ->
      submit (store ++ [r]) now' clock' body =
      match timing_check tz now' clock' (CreateClass.startTime c) with
      | Some failure => (store ++ [r], failure)
      | None => (store ++ [r], AlreadyMarked)
      end.
Proof.
  intros Hok.
  destruct (submitAttendance_cases store now clock body)
    as [[_ Hno] | (c & Hc & Hpass & Hnone & Heq)]; [congruence|].
  exists c, (present_record (List.length store) now body c).
  apply (gates_to_timing_split _ _ _ _ _ Hc) in Hpass as [Hearly Ht].
  split; [exact Hc|]. split; [rewrite Heq; reflexivity|]. split; [exact Ht|].
  intros now' clock' Hday.
  rewrite (submitAttendance_at_timing _ now' clock' _ c);
    [|rewrite <- Hearly; reflexivity | exact Hc].
  destruct (timing_check tz now' clock' _); [reflexivity|].
  rewrite existing_today_records, Hday, records_of_app.
  apply existing_today_None_iff in Hnone. rewrite Hnone. cbn [app].
  change (records_of [present_record (List.length store) now body c]
            (Body.rollNumber body) (CreateClass.className c)
            (CreateClass.subject c) (toISODate now))
    with (records_of [present_record (List.length store) now body c]
            (Attendance.rollNumber (present_record (List.length store) now body c))
            (Attendance.className (present_record (List.length store) now body c))
            (Attendance.subject (present_record (List.length store) now body c))
            (toISODate (Attendance.time (present_record (List.length store) now body c)))).
  rewrite records_of_own. reflexivity.
Qed.

(** X17.  Keyed by the UTC date of the timestamps, the day of the handler's
    own duplicate lookup: handling requests one after the other keeps at
    most one record per student, class name, subject and UTC date, and so
    every store reached from the empty one has at most one; a request
    appends at most one record and changes none; a submission that reaches
    the duplicate check inserts exactly when that UTC date holds no record
    for its key and is answered AlreadyMarked otherwise; and after a success
    the same request is answered AlreadyMarked at the same instant and
    whenever it reaches the duplicate check again on that UTC date, and is
    never a second success on that UTC date. *)
Theorem one_record_per_utc_date_invariant store :
  (forall rq, one_record_per_utc_date store ->
     one_record_per_utc_date (fst (do_handle store rq))) /\
  (forall rqs, one_record_per_utc_date store -> one_record_per_utc_date (do_run store rqs)) /\
  (forall rqs, one_record_per_utc_date (do_run [] rqs)) /\
  (forall rq, exists added,
     fst (do_handle store rq) = store ++ added /\ (List.length added <= 1)%nat) /\
  (forall now clock body c,
     first_failure gates_to_timing store now clock body = None ->
     CreateClass_findOne db (Body.classCode body) = Some c ->
     let today_records :=
       records_of store (Body.rollNumber body) (CreateClass.className c)
         (CreateClass.subject c) (toISODate now) in
     (today_records = [] ->
        submit store now clock body =
        (store ++ [present_record (List.length store) now body c],
         Success (CreateClass.className c) (CreateClass.subject c)
                 (toISODate now) now)) /\
     (today_records <> [] -> submit store now clock body = (store, AlreadyMarked))) /\
  (forall now clock body,
     fst (submit store now clock body) <> store ->
     exists c, CreateClass_findOne db (Body.classCode body) = Some c /\
       records_of store (Body.rollNumber body) (CreateClass.className c)
         (CreateClass.subject c) (toISODate now) = []) /\
  (forall now clock body,
     is_success (snd (submit store now clock body)) = true ->
     let store' := fst (submit store now clock body) in
     submit store' now clock body = (store', AlreadyMarked) /\
     forall now' clock', toISODate now' = toISODate now ->
       fst (submit store' now' clock' body) = store' /\
       (snd (submit store' now' clock' body) = AlreadyMarked \/
        issued_by (snd (submit store' now' clock' body)) = 7%nat) /\
       (first_failure gates_to_timing store' now' clock' body = None ->
        snd (submit store' now' clock' body) = AlreadyMarked)).
Proof.
  split; [intros rq; apply handle_preserves|].
  split; [intros rqs; apply run_preserves|].
  split; [intros rqs; apply run_preserves; intros r c u d; cbn; lia|].
  split; [apply handle_appends|].
  split; [|split].
  - intros now clock body c Hpass Hc today_records. subst today_records.
    rewrite (submitAttendance_at_duplicate _ _ _ _ _ Hpass Hc).
    destruct (records_of _ _ _ _ _); split; intros H; congruence.
  - intros now clock body Hchanged.
    destruct (submitAttendance_cases store now clock body)
      as [[Hst _] | (c & Hc & _ & Hnone & _)]; [congruence|].
    exists c. split; [exact Hc|]. apply existing_today_None_iff, Hnone.
  - intros now clock body Hok store'.
    destruct (resubmission _ _ _ _ Hok) as (c & r & Hc & Hst & Ht & Hre).
    subst store'. rewrite Hst. split.
    + rewrite (Hre now clock eq_refl), Ht. reflexivity.
    + intros now' clock' Hday. rewrite (Hre now' clock' Hday).
      destruct (timing_check tz now' clock' _) as [f|] eqn:Et'.
      * cbn [fst snd]. split; [reflexivity|]. split.
        -- right. apply timing_check_failure in Et' as [[n ->] | [n ->]]; reflexivity.
        -- intros Hpass.
           apply (gates_to_timing_split _ _ _ _ _ Hc) in Hpass as [_ Hpass].
           congruence.
      * cbn [fst snd]. split; [reflexivity|]. split; [left; reflexivity|]. reflexivity.
Qed.

End PipelineFacts.

(* ------------------------------------------------------------------------- *)
(** ** Notifications *)

Section NotificationFacts.
Import JSDate.

Variable db : DB.

Lemma diff_minutes_opp a b : Moment.diff_minutes a b = - Moment.diff_minutes b a.
Proof.
  unfold Moment.diff_minutes, msPerMinute.
  replace (a - b) with (- (b - a)) by lia.
  apply Z.quot_opp_l. lia.
Qed.

(** C4.  The status of a class is the first that applies of: marked when an
    attendance record exists, expired when the class has ended, active when
    [0 <= minutesFromStart <= 15], starting_soon when
    [minutesUntilStart <= 5], upcoming when [minutesUntilStart > 5], and
    expired otherwise, a case that never arises; [minutesRemaining] is
    [max(0, 15 - minutesFromStart)] when the status is active and 0
    otherwise.  A class without record that has not ended is starting_soon
    when it starts in 3 minutes, and active with 5 minutes remaining when it
    started 10 minutes ago. *)
Theorem notification_status_priority store serverTime rollNumber classInfo :
  let classDate :=
    Moment.tz_parse Moment.Asia_Kolkata
      (CreateClass.date classInfo) (CreateClass.startTime classInfo) in
  let classEndDate :=
    Moment.tz_parse Moment.Asia_Kolkata
      (CreateClass.date classInfo) (CreateClass.endTime classInfo) in
  let existingAttendance :=
    Attendance_findOne store rollNumber
      (CreateClass.className classInfo) (CreateClass.subject classInfo)
      (Moment.startOf_day Moment.Asia_Kolkata classDate)
      (Moment.endOf_day Moment.Asia_Kolkata classDate) in
  let minutesUntilStart := Moment.diff_minutes classDate serverTime in
  let minutesFromStart := Moment.diff_minutes serverTime classDate in
  let hasEnded := Moment.isAfter serverTime classEndDate in
  let n := notification store serverTime rollNumber classInfo in
  Notification.status n =
    first_match
      [(is_Some existingAttendance, marked);
       (hasEnded, expired);
       ((0 <=? minutesFromStart) && (minutesFromStart <=? 15), active);
       (minutesUntilStart <=? 5, starting_soon);
       (5 <? minutesUntilStart, upcoming)]
      expired /\
  Notification.minutesRemaining n =
    (if NotifStatus_eqb (Notification.status n) active
     then Z.max 0 (15 - minutesFromStart) else 0) /\
  (existingAttendance <> None -> Notification.status n = marked) /\
  (existingAttendance = None -> hasEnded = true ->
     Notification.status n = expired) /\
  (existingAttendance = None -> hasEnded = false ->
     0 <= minutesFromStart <= 15 ->
     Notification.status n = active /\
     Notification.minutesRemaining n = 15 - minutesFromStart) /\
  (existingAttendance = None -> hasEnded = false ->
     ~ 0 <= minutesFromStart <= 15 -> minutesUntilStart <= 5 ->
     Notification.status n = starting_soon) /\
  (existingAttendance = None -> hasEnded = false ->
     ~ 0 <= minutesFromStart <= 15 -> 5 < minutesUntilStart ->
     Notification.status n = upcoming) /\
  (Notification.status n = expired -> existingAttendance = None /\ hasEnded = true) /\
  (Notification.status n <> active -> Notification.minutesRemaining n = 0) /\
  (existingAttendance = None -> hasEnded = false -> minutesUntilStart = 3 ->
     Notification.status n = starting_soon) /\
  (existingAttendance = None -> hasEnded = false -> minutesFromStart = 10 ->
     Notification.status n = active /\ Notification.minutesRemaining n = 5).
Proof.
  intros classDate classEndDate existingAttendance minutesUntilStart
    minutesFromStart hasEnded n.
  assert (Hopp : minutesFromStart = - minutesUntilStart)
    by apply diff_minutes_opp.
  assert (Hst : Notification.status n =
                notification_status existingAttendance hasEnded
                  minutesFromStart minutesUntilStart) by reflexivity.
  assert (Hrem : Notification.minutesRemaining n =
                 (if NotifStatus_eqb (Notification.status n) active
                  then Z.max 0 (15 - minutesFromStart) else 0)) by reflexivity.
  clearbody n minutesFromStart minutesUntilStart hasEnded existingAttendance.
  rewrite Hrem, Hst. clear Hrem Hst n. unfold notification_status, first_match, is_Some.
  destruct existingAttendance as [a|], hasEnded;
    destruct (Z.leb_spec 0 minutesFromStart), (Z.leb_spec minutesFromStart 15),
             (Z.leb_spec minutesUntilStart 5), (Z.ltb_spec 5 minutesUntilStart);
    cbn [andb NotifStatus_eqb];
    repeat split; intros; try congruence; try lia; try discriminate;
    try (split; [reflexivity | lia]).
Qed.

(** C8.  For a known student the response holds exactly the notifications of
    today's classes whose status is not expired, so none of its entries is
    expired, together with the server time the statuses were computed at;
    for an unknown student it is the not-found response. *)
Theorem notifications_never_expired store now rollNumber :
  match fetchNotifications db store now rollNumber with
  | NotifStudentNotFound => Student_findOne db rollNumber = None
  | NotifOk notifications serverTime =>
      serverTime = now /\
      Forall (fun n => Notification.status n <> expired) notifications /\
      exists student,
        Student_findOne db rollNumber = Some student /\
        forall n, In n notifications <->
          Notification.status n <> expired /\
          exists classInfo,
            In classInfo
              (CreateClass_find db
                 (JSString.Number_toString (Student.year student))
                 (Student.department student)
                 (Moment.format_date Moment.Asia_Kolkata now)) /\
            n = notification store serverTime rollNumber classInfo
  end.
Proof.
  unfold fetchNotifications.
  destruct (Student_findOne db rollNumber) as [student|]; [|reflexivity].
  assert (Hne : forall n : Notification.t,
            negb (NotifStatus_eqb (Notification.status n) expired) = true <->
            Notification.status n <> expired).
  { intros n. destruct (Notification.status n); cbn; split; congruence. }
  split; [reflexivity|]. split.
  - apply Forall_forall. intros n Hn. apply filter_In in Hn as [_ Hn].
    apply Hne, Hn.
  - exists student. split; [reflexivity|]. intros n.
    rewrite filter_In, in_map_iff, Hne. split.
    + intros [(classInfo & <- & Hin) Hs]. split; [exact Hs|].
      exists classInfo. auto.
    + intros [Hs (classInfo & Hin & ->)]. split; [|exact Hs].
      exists classInfo. auto.
Qed.

End NotificationFacts.


(* ------------------------------------------------------------------------- *)
(** ** The two handlers and the time zone *)

(** C7.  The handlers do not share one reference time zone.
    [fetchNotifications] takes today's date and the start of a class in
    Asia/Kolkata; [submitAttendance] takes today's date in UTC and the start
    of the class in the zone of the server process.  The two dates differ
    from 18:30 UTC to midnight UTC, as at 20:30 UTC on 2024-01-01; on a
    server running in UTC the two starts of a 09:00 class are 5 hours 30
    minutes apart, and five minutes after the start that
    [fetchNotifications] uses, where it reports the class active,
    [submitAttendance] answers that the class starts in 325 minutes. *)
Theorem handlers_disagree_on_today :
  (forall now,
     Moment.format_date Moment.Asia_Kolkata now = JSDate.toISODate now <->
     JSDate.TimeWithinDay now < 66600000) /\
  Moment.format_date Moment.Asia_Kolkata Sample.small_hours = JSDate.mkDate 2024 1 2 /\
  JSDate.toISODate Sample.small_hours = JSDate.mkDate 2024 1 1 /\
  Moment.tz_parse Moment.Asia_Kolkata (JSDate.mkDate 2024 1 2) (9, 0) = Sample.nine /\
  classStartTime 0 Sample.nine (9, 0) = Sample.nine + 19800000 /\
  (exists n,
     fetchNotifications Sample.db [] Sample.nine_oh_five "21CS001"
     = NotifOk [n] Sample.nine_oh_five /\
     Notification.status n = active) /\
  submitAttendance Sample.haversine Sample.RegExp_i 0 Sample.db []
    Sample.nine_oh_five Sample.nine_oh_five Sample.body = ([], TooEarly 325).
Proof.
  split.
  { intros now. unfold Moment.format_date, JSDate.toISODate. split.
    - intros H. apply JSDateFacts.civil_from_days_inj in H.
      revert H. unfold JSDate.Day, JSDate.TimeWithinDay, Moment.Asia_Kolkata,
        JSDate.msPerDay.
      Z.to_euclidean_division_equations. lia.
    - intros H. f_equal.
      revert H. unfold JSDate.Day, JSDate.TimeWithinDay, Moment.Asia_Kolkata,
        JSDate.msPerDay.
      Z.to_euclidean_division_equations. lia. }
  split; [reflexivity|]. split; [reflexivity|]. split; [reflexivity|].
  split; [reflexivity|]. split.
  - eexists. split; vm_compute; reflexivity.
  - vm_compute. reflexivity.
Qed.

(** C2.  The handler does not keep one record per calendar day.  On a
    server running in Asia/Kolkata, for a class that starts at 05:20, the
    same request is accepted at 05:25 and again at 05:32, inside one
    attendance window and on one Asia/Kolkata date: the first submission
    falls on 2024-01-01 in UTC and the second on 2024-01-02, and the
    duplicate lookup of the second, bounded by the UTC date, misses the
    record of the first.  The store then holds two records of the student
    for the class and subject. *)
Theorem duplicate_within_one_window :
  let submit :=
    submitAttendance Sample.haversine Sample.RegExp_i Moment.Asia_Kolkata
      Sample2.dawn_db in
  let first :=
    Attendance.mk 0 "21CS001" "CS201" "Algorithms" "D4WN" "Present"
      Sample2.first_try in
  let second :=
    Attendance.mk 1 "21CS001" "CS201" "Algorithms" "D4WN" "Present"
      Sample2.second_try in
  submit [] Sample2.first_try Sample2.first_try Sample2.dawn_body
  = ([first],
     Success "CS201" "Algorithms" (JSDate.mkDate 2024 1 1) Sample2.first_try) /\
  submit [first] Sample2.second_try Sample2.second_try Sample2.dawn_body
  = ([first; second],
     Success "CS201" "Algorithms" (JSDate.mkDate 2024 1 2) Sample2.second_try) /\
  Moment.format_date Moment.Asia_Kolkata Sample2.first_try = JSDate.mkDate 2024 1 2 /\
  Moment.format_date Moment.Asia_Kolkata Sample2.second_try = JSDate.mkDate 2024 1 2 /\
  classStartTime Moment.Asia_Kolkata Sample2.first_try (5, 20)
  = classStartTime Moment.Asia_Kolkata Sample2.second_try (5, 20) /\
  Sample2.second_try - Sample2.first_try = 7 * JSDate.msPerMinute.
Proof.
  cbv zeta. repeat split; vm_compute; reflexivity.
Qed.

(** The class-code gate fails on a class code that is not a string: the
    operator object [{"$ne": null}] finds the sample class, and the request,
    which passes the geofence and the beacon check, is answered with the
    class-code error and the stored code. *)
Lemma code_mismatch_reachable :
  submitAttendance Sample.haversine Sample.RegExp_i Moment.Asia_Kolkata Sample.db
    [] Sample.nine_oh_five Sample.nine_oh_five Sample2.operator_body
  = ([], CodeMismatch "X7Q2").
Proof. vm_compute. reflexivity. Qed.

(* ------------------------------------------------------------------------- *)
(** ** The theorems on the sample deployment *)

(** The sample request passes every gate at 09:05 and is recorded. *)
Lemma submitAttendance_gates_in_order_witness :
  submitAttendance Sample.haversine Sample.RegExp_i Moment.Asia_Kolkata Sample.db
    [] Sample.nine_oh_five Sample.nine_oh_five Sample.body
  = ([Attendance.mk 0 "21CS001" "CS201" "Algorithms" "X7Q2" "Present"
        Sample.nine_oh_five],
     Success "CS201" "Algorithms" (JSDate.mkDate 2024 1 2) Sample.nine_oh_five).
Proof.
  destruct (submitAttendance_gates_in_order Sample.haversine Sample.RegExp_i
              Moment.Asia_Kolkata Sample.db [] Sample.nine_oh_five
              Sample.nine_oh_five Sample.body) as (_ & Hpass & _).
  destruct Hpass as (c & Hc & Hres); [vm_compute; reflexivity|].
  injection Hc as <-. exact Hres.
Defined.

(** A second submission the same day is answered AlreadyMarked. *)
Lemma one_record_per_utc_date_invariant_witness :
  let submit :=
    submitAttendance Sample.haversine Sample.RegExp_i Moment.Asia_Kolkata Sample.db in
  let store' := fst (submit [] Sample.nine_oh_five Sample.nine_oh_five Sample.body) in
  submit store' Sample.nine_oh_five Sample.nine_oh_five Sample.body
  = (store', AlreadyMarked).
Proof.
  cbv zeta.
  destruct (one_record_per_utc_date_invariant Sample.haversine Sample.RegExp_i
              Moment.Asia_Kolkata Sample.db []) as (_ & _ & _ & _ & _ & _ & Hre).
  destruct (Hre Sample.nine_oh_five Sample.nine_oh_five Sample.body) as [Hsame _];
    [vm_compute; reflexivity|].
  exact Hsame.
Defined.

(** At 09:00 sharp the timing gate of the sample class passes. *)
Lemma attendance_window_inclusive_witness :
  timing_check Moment.Asia_Kolkata Sample.nine Sample.nine (9, 0) = None.
Proof.
  destruct (attendance_window_inclusive Sample.haversine Sample.RegExp_i
              Moment.Asia_Kolkata Sample.db [] Sample.nine Sample.nine
              Sample.body Sample.class)
    as (_ & Hstart & _); [vm_compute; reflexivity | reflexivity |].
  destruct Hstart as [Hgate _]; [reflexivity|]. exact Hgate.
Defined.

(** Three minutes before 09:00 the sample class is starting soon. *)
Lemma notification_status_priority_witness :
  Notification.status
    (notification [] (Sample.nine - 3 * JSDate.msPerMinute) "21CS001" Sample.class)
  = starting_soon.
Proof.
  destruct (notification_status_priority [] (Sample.nine - 3 * JSDate.msPerMinute)
              "21CS001" Sample.class)
    as (_ & _ & _ & _ & _ & _ & _ & _ & _ & Hsoon & _).
  apply Hsoon; reflexivity.
Defined.

(** From 1.1 km away the sample request is out of range. *)
Lemma geofence_out_of_range_witness :
  submitAttendance Sample.haversine Sample.RegExp_i Moment.Asia_Kolkata Sample.db
    [] Sample.nine_oh_five Sample.nine_oh_five Sample.far_body
  = ([], OutOfRange 1113 50).
Proof.
  destruct (geofence_out_of_range Sample.haversine Sample.RegExp_i
              Moment.Asia_Kolkata Sample.db [] Sample.nine_oh_five
              Sample.nine_oh_five Sample.far_body Sample.location
              (Sample.haversine (2862 # 100, 7720 # 100) (2861 # 100, 7720 # 100))
              eq_refl eq_refl)
    as [Hfar _].
  destruct Hfar as (_ & _ & _ & _ & Hres); [vm_compute; reflexivity|].
  apply (Hres Sample.student Sample.class). repeat split.
Defined.

(** A beacon identifier that differs from the configured one is a
    mismatch. *)
Lemma beacon_gate_normalizes_witness :
  beacon_check (Some " ABC123 "%string) (Some "abc124"%string)
  = Some (BeaconMismatch (Some " ABC123 "%string) (Some "abc124"%string)).
Proof.
  destruct (beacon_gate_normalizes Sample.haversine Sample.RegExp_i
              Moment.Asia_Kolkata Sample.db) as (_ & _ & _ & _ & Hmis & _).
  apply Hmis; [reflexivity|]. right. discriminate.
Defined.

(** The sample request, whose class code is a string, is not answered with
    the class-code error. *)
Lemma code_mismatch_unreachable_witness :
  snd (submitAttendance Sample.haversine Sample.RegExp_i Moment.Asia_Kolkata
         Sample.db [] Sample.nine_oh_five Sample.nine_oh_five Sample.body)
  <> CodeMismatch "X7Q2".
Proof.
  apply (code_mismatch_unreachable Sample.haversine Sample.RegExp_i
           Moment.Asia_Kolkata Sample.db [] Sample.nine_oh_five
           Sample.nine_oh_five Sample.body "X7Q2" "X7Q2" eq_refl).
Defined.

(** The sample class, dated 2024-01-02, is accepted at 09:05 on
    2024-03-15. *)
Lemma class_date_not_checked_witness :
  CreateClass.date Sample.class = JSDate.mkDate 2024 1 2 /\
  JSDate.toISODate Sample.march_15 = JSDate.mkDate 2024 3 15 /\
  is_success
    (snd (submitAttendance Sample.haversine Sample.RegExp_i Moment.Asia_Kolkata
            Sample.db [] Sample.march_15 Sample.march_15 Sample.body)) = true.
Proof.
  split; [reflexivity|]. split; [reflexivity|].
  destruct (class_date_not_checked Sample.haversine Sample.RegExp_i
              Moment.Asia_Kolkata Sample.db) as (_ & _ & Hany).
  rewrite (Hany [] Sample.march_15 Sample.march_15 Sample.body Sample.class);
    [reflexivity | vm_compute; reflexivity | reflexivity | reflexivity
     | reflexivity | vm_compute; split; discriminate].
Defined.

(* ------------------------------------------------------------------------- *)
(** ** Blank beacon identifiers *)

Lemma trimEnd_empty_iff s :
  JSString.trimEnd s = EmptyString <-> JSString.isBlank s = true.
Proof.
  induction s as [|ch s IH]; cbn; [tauto|].
  destruct (JSString.trimEnd s) eqn:E.
  - destruct (JSString.isWhiteSpace ch); cbn.
    + split; intros _; [apply IH|]; reflexivity.
    + split; discriminate.
  - split; [discriminate|]. intros H. apply andb_true_iff in H as [_ H].
    apply IH in H. discriminate.
Qed.

Lemma isBlank_trimStart s :
  JSString.isBlank (JSString.trimStart s) = JSString.isBlank s.
Proof.
  induction s as [|ch s IH]; cbn; [reflexivity|].
  destruct (JSString.isWhiteSpace ch) eqn:E; [exact IH|].
  cbn. rewrite E. reflexivity.
Qed.

(** A string trims to nothing exactly when it is made of white space. *)
Lemma trim_empty_iff s :
  JSString.trim s = EmptyString <-> JSString.isBlank s = true.
Proof.
  unfold JSString.trim. rewrite trimEnd_empty_iff. rewrite isBlank_trimStart. tauto.
Qed.

Lemma normalize_beacon_blank x :
  JSString.isBlank x = true ->
  JSString.truthy (normalize_beacon (Some x)) = false.
Proof.
  intros H. unfold normalize_beacon.
  destruct (JSString.truthy (Some x)); [|reflexivity].
  rewrite (proj2 (trim_empty_iff x) H). reflexivity.
Qed.

Lemma normalize_beacon_not_blank x :
  JSString.isBlank x = false ->
  JSString.truthy (normalize_beacon (Some x)) = true.
Proof.
  intros H. unfold normalize_beacon.
  assert (Hx : x <> EmptyString) by (intros ->; discriminate).
  rewrite (proj2 (JSStringFacts.truthy_Some x) Hx).
  apply JSStringFacts.truthy_Some. intros E.
  destruct (JSString.trim x) eqn:Et; [|discriminate].
  apply trim_empty_iff in Et. congruence.
Qed.

(** X5.  An identifier that is empty or made of white space only counts as
    absent: such a configured identifier is answered Misconfigured whatever
    was received, and such a received identifier is a mismatch for any
    configured identifier that is not blank. *)
Theorem blank_beacon_identifiers :
  (forall x received,
     JSString.isBlank x = true ->
     beacon_check (Some x) received = Some Misconfigured) /\
  (forall x y,
     JSString.isBlank x = false -> JSString.isBlank y = true ->
     beacon_check (Some x) (Some y) = Some (BeaconMismatch (Some x) (Some y))).
Proof.
  split.
  - intros x received Hx. unfold beacon_check.
    rewrite (normalize_beacon_blank _ Hx). reflexivity.
  - intros x y Hx Hy. unfold beacon_check.
    rewrite (normalize_beacon_not_blank _ Hx), (normalize_beacon_blank _ Hy).
    reflexivity.
Qed.

(* ------------------------------------------------------------------------- *)
(** ** Further properties of [submitAttendance] *)

Section SubmitProperties.
Import JSDate.

Variable haversine : Q * Q -> Q * Q -> Q.
Variable RegExp_i : string -> string -> bool.
Variable tz : Z.
Variable db : DB.

Local Abbreviation submit := (submitAttendance haversine RegExp_i tz db).
Local Abbreviation early_gates := (gates_before_timing haversine RegExp_i db).
Local Abbreviation is_found := (found RegExp_i db).

Lemma timing_check_None_iff now clock hm :
  timing_check tz now clock hm = None <->
  classStartTime tz clock hm <= now <= classStartTime tz clock hm + 15 * msPerMinute.
Proof.
  split; [|apply timing_check_inside].
  unfold timing_check. rewrite attendanceWindowEnd_eq.
  destruct (Z.ltb_spec now (classStartTime tz clock hm)); [discriminate|].
  destruct (Z.ltb_spec (classStartTime tz clock hm + 15 * msPerMinute) now);
    [discriminate|].
  intros _. lia.
Qed.

Lemma gt_false_cases x r :
  JSMath.gt x r = false <-> x = NaN \/ exists d, x = Num d /\ (d <= r)%Q.
Proof.
  destruct x as [d|]; split.
  - intros H. right. exists d. split; [reflexivity|].
    apply JSMathFacts.gt_false_iff, H.
  - intros [H | (d' & [= <-] & H)]; [discriminate|].
    apply JSMathFacts.gt_false_iff, H.
  - intros _. left. reflexivity.
  - intros _. reflexivity.
Qed.

(** X1.  A submission is accepted exactly when the student, the class of the
    code and the location of the class name exist, the submitted class code
    is a string, the code of the class found, the distance is not a number
    (a coordinate is missing) or is within the radius, both beacon
    identifiers have the same non-empty trimmed lower-case form, [now] is
    within 15 minutes from the start of the class, and the student has no
    record for the class name and subject on the UTC date of [now]. *)
Theorem submitAttendance_accepts_iff store now clock body :
  is_success (snd (submit store now clock body)) = true <->
  exists s c g,
    is_found body s c g /\
    Body.classCode body = CodeText (CreateClass.classCode c) /\
    (distance_to haversine body g = NaN \/
     exists d, distance_to haversine body g = Num d /\ (d <= AddClass.radius g)%Q) /\
    (exists x y,
       AddClass.beaconId g = Some x /\ received_beacon body = Some y /\
       JSString.toLowerCase (JSString.trim x)
       = JSString.toLowerCase (JSString.trim y) /\
       JSString.toLowerCase (JSString.trim x) <> EmptyString) /\
    classStartTime tz clock (CreateClass.startTime c) <= now
      <= classStartTime tz clock (CreateClass.startTime c) + 15 * msPerMinute /\
    records_of store (Body.rollNumber body) (CreateClass.className c)
      (CreateClass.subject c) (toISODate now) = [].
Proof.
  split.
  - intros Hok.
    destruct (submitAttendance_cases haversine RegExp_i tz db store now clock body)
      as [[_ Hno] | (c & Hc & Hpass & Hnone & _)]; [congruence|].
    apply (gates_to_timing_split _ _ _ _ _ _ _ _ _ Hc) in Hpass as [Hearly Ht].
    pose proof (early_gates_code haversine RegExp_i db store now clock body c Hearly Hc)
      as Hcode.
    apply early_gates_pass in Hearly as (s & c' & g & Hf & Hd & Hb).
    assert (c' = c) as -> by (destruct Hf as (_ & Hc' & _); congruence).
    exists s, c, g. split; [exact Hf|].
    split; [apply code_strict_eq_iff, Hcode|].
    split; [apply gt_false_cases, Hd|].
    split; [apply beacon_check_None_iff, Hb|].
    split; [apply timing_check_None_iff, Ht|].
    apply (existing_today_None_iff tz), Hnone.
  - intros (s & c & g & Hf & Hcode & Hd & Hb & Ht & Hnone).
    rewrite (submitAttendance_found _ _ _ _ _ _ _ _ _ _ _ Hf).
    rewrite (proj2 (gt_false_cases _ _) Hd).
    rewrite (proj2 (beacon_check_None_iff _ _) Hb).
    rewrite (proj2 (code_strict_eq_iff _ _) Hcode).
    rewrite (proj2 (timing_check_None_iff _ _ _) Ht).
    rewrite (proj2 (existing_today_None_iff tz _ _ _ _ _) Hnone).
    reflexivity.
Qed.

(** X2.  The class that is recorded is the one the class code identifies,
    while the geofence and the beacon that were checked are those of the
    location found by the submitted class name; nothing ties the two
    together. *)
Theorem recorded_class_is_the_coded_one store now clock body c g :
  CreateClass_findOne db (Body.classCode body) = Some c ->
  AddClass_findOne RegExp_i db (Body.className body) = Some g ->
  is_success (snd (submit store now clock body)) = true ->
  submit store now clock body =
    (store ++ [present_record (List.length store) now body c],
     Success (CreateClass.className c) (CreateClass.subject c) (toISODate now) now) /\
  JSMath.gt (distance_to haversine body g) (AddClass.radius g) = false /\
  beacon_check (AddClass.beaconId g) (received_beacon body) = None.
Proof.
  intros Hc Hg Hok.
  destruct (submitAttendance_cases haversine RegExp_i tz db store now clock body)
    as [[_ Hno] | (c' & Hc' & Hpass & _ & Heq)]; [congruence|].
  assert (c' = c) as -> by congruence.
  split; [exact Heq|].
  apply (gates_to_timing_split _ _ _ _ _ _ _ _ _ Hc) in Hpass as [Hearly _].
  apply early_gates_pass in Hearly as (s & c' & g' & (_ & _ & Hg') & Hd & Hb).
  assert (g' = g) as -> by congruence.
  split; [exact Hd | exact Hb].
Qed.

Lemma timing_check_minutes now clock hm :
  (forall n, timing_check tz now clock hm = Some (TooEarly n) -> 1 <= n) /\
  (forall n, timing_check tz now clock hm = Some (WindowExpired n) -> 0 <= n).
Proof.
  split; intros n.
  - destruct (Z.lt_ge_cases now (classStartTime tz clock hm)) as [H|H].
    + rewrite (timing_check_early _ _ _ _ H). intros [= <-].
      pose proof (JSMathFacts.ceil_minutes_spec (classStartTime tz clock hm - now)).
      cbv zeta in *. lia.
    + unfold timing_check.
      replace (now <? classStartTime tz clock hm) with false
        by (symmetry; apply Z.ltb_ge; lia).
      destruct (_ <? now); discriminate.
  - destruct (Z.lt_ge_cases (classStartTime tz clock hm + 15 * msPerMinute) now)
      as [H|H].
    + rewrite (timing_check_late _ _ _ _ H). intros [= <-].
      unfold msPerMinute in H.
      assert (15 <= (now - classStartTime tz clock hm) / 60000)
        by (apply Z.div_le_lower_bound; lia).
      lia.
    + unfold timing_check. rewrite attendanceWindowEnd_eq.
      destruct (now <? classStartTime tz clock hm); [discriminate|].
      replace (classStartTime tz clock hm + 15 * msPerMinute <? now) with false
        by (symmetry; apply Z.ltb_ge; lia).
      discriminate.
Qed.

(** X3.  The minutes reported with a timing failure are never misleading by
    their sign: a class that has not started is at least 1 minute away, and
    a closed window is at least 0 minutes late. *)
Theorem reported_minutes_bounds store now clock body :
  (forall n, snd (submit store now clock body) = TooEarly n -> 1 <= n) /\
  (forall n, snd (submit store now clock body) = WindowExpired n -> 0 <= n).
Proof.
  assert (H : forall r, snd (submit store now clock body) = r ->
            issued_by r = 7%nat ->
            exists hm, timing_check tz now clock hm = Some r).
  { intros r Hr Hi. revert Hr. unfold submitAttendance.
    destruct (Student_findOne db _); [|intros <-; discriminate].
    destruct (CreateClass_findOne db _) as [c|]; [|intros <-; discriminate].
    destruct (AddClass_findOne RegExp_i db _); [|intros <-; discriminate].
    destruct (JSMath.gt _ _); [intros <-; discriminate|].
    destruct (beacon_check _ _) as [f|] eqn:Eb.
    { intros <-. apply beacon_check_failure in Eb as [-> | ->]; discriminate. }
    destruct (negb _); [intros <-; discriminate|].
    destruct (timing_check tz _ _ _) as [f|] eqn:Et.
    { intros <-. exists (CreateClass.startTime c). exact Et. }
    destruct (existing_today tz _ _ _ _ _); intros <-; discriminate. }
  split; intros n Hn.
  - destruct (H _ Hn eq_refl) as [hm Hhm].
    exact (proj1 (timing_check_minutes now clock hm) n Hhm).
  - destruct (H _ Hn eq_refl) as [hm Hhm].
    exact (proj2 (timing_check_minutes now clock hm) n Hhm).
Qed.

(** X4.  The handler reads the clock a second time to date the start of the
    class.  When that second reading falls on a later local calendar day
    than [now], a request that reaches the timing gate is answered TooEarly,
    whatever the start time of the class. *)
Theorem clock_read_after_midnight store now clock body c :
  first_failure early_gates store now clock body = None ->
  CreateClass_findOne db (Body.classCode body) = Some c ->
  within_day (CreateClass.startTime c) ->
  Day (LocalTime tz now) < Day (LocalTime tz clock) ->
  exists n, submit store now clock body = (store, TooEarly n) /\ 1 <= n.
Proof.
  intros Hearly Hc Hwf Hday.
  assert (Hlt : now < classStartTime tz clock (CreateClass.startTime c)).
  { rewrite classStartTime_eq. unfold MakeDate, within_day in *.
    pose proof (JSDateFacts.Day_bounds (LocalTime tz now)) as Hb.
    unfold LocalTime, msPerDay in *. nia. }
  rewrite (submitAttendance_at_timing _ _ _ _ _ _ _ _ _ Hearly Hc).
  rewrite (timing_check_early _ _ _ _ Hlt).
  eexists. split; [reflexivity|].
  apply (proj1 (timing_check_minutes now clock (CreateClass.startTime c))).
  apply timing_check_early, Hlt.
Qed.

(** X6.  The duplicate check goes by roll number, class name, subject and
    UTC date, not by class code: once a submission is accepted, no request
    of the same student that day is accepted for any class with that name
    and subject, whatever its class code and its other fields. *)
Theorem duplicate_key_ignores_class_code store now clock body c :
  is_success (snd (submit store now clock body)) = true ->
  CreateClass_findOne db (Body.classCode body) = Some c ->
  forall body' c' now' clock',
    Body.rollNumber body' = Body.rollNumber body ->
    CreateClass_findOne db (Body.classCode body') = Some c' ->
    CreateClass.className c' = CreateClass.className c ->
    CreateClass.subject c' = CreateClass.subject c ->
    toISODate now' = toISODate now ->
    let store' := fst (submit store now clock body) in
    fst (submit store' now' clock' body') = store' /\
    is_success (snd (submit store' now' clock' body')) = false.
Proof.
  intros Hok Hc body' c' now' clock' Hroll Hc' Hname Hsubj Hday store'.
  destruct (submitAttendance_cases haversine RegExp_i tz db store now clock body)
    as [[_ Hno] | (c0 & Hc0 & _ & _ & Heq)]; [congruence|].
  assert (c0 = c) as -> by congruence.
  subst store'. rewrite Heq. cbn [fst].
  destruct (submitAttendance_cases haversine RegExp_i tz db
              (store ++ [present_record (List.length store) now body c])
              now' clock' body')
    as [Hsame | (c1 & Hc1 & _ & Hnone & _)]; [exact Hsame|].
  exfalso. assert (c1 = c') as -> by congruence.
  apply (existing_today_None_iff tz) in Hnone.
  rewrite records_of_app, Hroll, Hname, Hsubj, Hday in Hnone.
  apply app_eq_nil in Hnone as [_ Hnone].
  change (records_of [present_record (List.length store) now body c]
            (Body.rollNumber body) (CreateClass.className c)
            (CreateClass.subject c) (toISODate now))
    with (records_of [present_record (List.length store) now body c]
            (Attendance.rollNumber (present_record (List.length store) now body c))
            (Attendance.className (present_record (List.length store) now body c))
            (Attendance.subject (present_record (List.length store) now body c))
            (toISODate (Attendance.time (present_record (List.length store) now body c))))
    in Hnone.
  rewrite records_of_own in Hnone. discriminate.
Qed.

Local Abbreviation do_handle := (handle haversine RegExp_i tz db).
Local Abbreviation do_run := (run haversine RegExp_i tz db).

(** A record written by the handler is a Present record of a known student
    for a scheduled class. *)
Local Abbreviation well_referenced :=
  (fun r : Attendance.t =>
     Attendance.status r = "Present"%string /\
     Student_findOne db (Attendance.rollNumber r) <> None /\
     exists c, In c (classes db) /\
       CreateClass.classCode c = Attendance.classCode r /\
       CreateClass.className c = Attendance.className r /\
       CreateClass.subject c = Attendance.subject r).

Lemma handle_added store rq :
  exists added,
    fst (do_handle store rq) = store ++ added /\
    (List.length added <= submissions [rq])%nat /\
    Forall well_referenced added.
Proof.
  destruct rq as [now r | now clock body | r]; cbn [handle fst submissions];
    try (exists []; rewrite app_nil_r; repeat split; [cbn; lia | constructor]).
  destruct (submitAttendance_cases haversine RegExp_i tz db store now clock body)
    as [[Hst _] | (c & Hc & Hpass & _ & Heq)].
  - destruct (submit store now clock body) as [store' resp]. cbn [fst] in *.
    subst store'. exists []. rewrite app_nil_r.
    split; [reflexivity|]. split; [cbn; lia | constructor].
  - rewrite Heq. cbn [fst]. eexists. split; [reflexivity|].
    split; [cbn; lia|]. constructor; [|constructor].
    apply (gates_to_timing_split _ _ _ _ _ _ _ _ _ Hc) in Hpass as [Hearly _].
    apply early_gates_pass in Hearly as (s & _ & _ & (Hs & _) & _).
    split; [reflexivity|]. split; [cbn; congruence|].
    exists c. split; [|repeat split].
    unfold CreateClass_findOne in Hc. apply find_some in Hc as [Hin _]. exact Hin.
Qed.

(** X7.  Handling requests one after the other only appends to the store:
    the records that were there stay as they are, at most one record is
    added per submission, and every record added is a Present record of a
    known student that carries the code, name and subject of a scheduled
    class. *)
Theorem run_appends_referenced_records rqs : forall store,
  exists added,
    do_run store rqs = store ++ added /\
    (List.length added <= submissions rqs)%nat /\
    Forall (fun r : Attendance.t =>
              Attendance.status r = "Present"%string /\
              Student_findOne db (Attendance.rollNumber r) <> None /\
              exists c, In c (classes db) /\
                CreateClass.classCode c = Attendance.classCode r /\
                CreateClass.className c = Attendance.className r /\
                CreateClass.subject c = Attendance.subject r) added.
Proof.
  induction rqs as [|rq rest IH]; intros store; cbn [run].
  - exists []. rewrite app_nil_r. repeat split; [cbn; lia | constructor].
  - destruct (handle_added store rq) as (a1 & H1 & L1 & F1).
    destruct (IH (fst (do_handle store rq))) as (a2 & H2 & L2 & F2).
    exists (a1 ++ a2). rewrite H2, H1, app_assoc.
    split; [reflexivity|]. split.
    + rewrite length_app.
      assert (submissions (rq :: rest) = (submissions [rq] + submissions rest)%nat)
        by (destruct rq; reflexivity).
      lia.
    + apply Forall_app. split; assumption.
Qed.

(** X18.  A request without a numeric latitude or longitude passes the
    geofence gate: its distance is not a number, which is not greater than
    any radius, and it is never answered OutOfRange. *)
Theorem missing_coordinates_pass_geofence store now clock body :
  Body.latitude body = None \/ Body.longitude body = None ->
  gate_geofence haversine RegExp_i db store now clock body = None /\
  forall d r, snd (submit store now clock body) <> OutOfRange d r.
Proof.
  intros Hmiss.
  assert (Hnan : forall g, distance_to haversine body g = NaN).
  { intros g. unfold distance_to, haversine_number.
    destruct Hmiss as [-> | ->]; [reflexivity|].
    destruct (Body.latitude body); reflexivity. }
  split.
  - unfold gate_geofence.
    destruct (AddClass_findOne RegExp_i db _) as [g|]; [|reflexivity].
    rewrite Hnan. reflexivity.
  - intros d r. unfold submitAttendance.
    destruct (Student_findOne db _); [|discriminate].
    destruct (CreateClass_findOne db _) as [c|]; [|discriminate].
    destruct (AddClass_findOne RegExp_i db _) as [g|]; [|discriminate].
    fold (distance_to haversine body g). rewrite Hnan. cbn [JSMath.gt].
    destruct (beacon_check _ _) as [f|] eqn:Eb.
    { cbn [snd]. apply beacon_check_failure in Eb as [-> | ->]; discriminate. }
    destruct (negb _); [discriminate|].
    destruct (timing_check tz _ _ _) as [f|] eqn:Et.
    { cbn [snd]. apply timing_check_failure in Et as [[n ->] | [n ->]]; discriminate. }
    destruct (existing_today tz _ _ _ _ _); discriminate.
Qed.

(** X19.  A class code that is not a string but finds a class, a number the
    schema casts or a query operator object, is answered with the
    class-code error once the geofence and beacon checks have passed, and the
    answer carries the stored code of the class found. *)
Theorem non_string_code_is_mismatch store now clock body s c g :
  is_found body s c g ->
  JSMath.gt (distance_to haversine body g) (AddClass.radius g) = false ->
  beacon_check (AddClass.beaconId g) (received_beacon body) = None ->
  (forall text, Body.classCode body <> CodeText text) ->
  submit store now clock body = (store, CodeMismatch (CreateClass.classCode c)).
Proof.
  intros Hf Hd Hb Hcode.
  rewrite (submitAttendance_found _ _ _ _ _ _ _ _ _ _ _ Hf), Hd, Hb.
  destruct (code_strict_eq _ _) eqn:E; [|reflexivity].
  apply code_strict_eq_iff in E. exfalso. exact (Hcode _ E).
Qed.

End SubmitProperties.


(* ------------------------------------------------------------------------- *)
(** ** Sorting by a key *)

Section SortFacts.
Variable A : Type.
Variable leb : A -> A -> bool.

Lemma insert_by_perm x l : Permutation (insert_by leb x l) (x :: l).
Proof.
  induction l as [|y l IH]; cbn; [reflexivity|].
  destruct (leb x y); [reflexivity|].
  rewrite IH. apply perm_swap.
Qed.

Lemma sort_by_perm l : Permutation (sort_by leb l) l.
Proof.
  induction l as [|x l IH]; cbn; [reflexivity|].
  rewrite insert_by_perm, IH. reflexivity.
Qed.

Hypothesis leb_total : forall a b, leb a b = true \/ leb b a = true.
Hypothesis leb_trans : forall a b c, leb a b = true -> leb b c = true -> leb a c = true.

Lemma insert_by_sorted x l :
  StronglySorted (fun a b => leb a b = true) l ->
  StronglySorted (fun a b => leb a b = true) (insert_by leb x l).
Proof.
  induction 1 as [|y l Hs IH Hy]; cbn.
  - constructor; constructor.
  - destruct (leb x y) eqn:E.
    + constructor; [constructor; assumption|].
      constructor; [exact E|].
      apply Forall_forall. intros z Hz.
      apply (leb_trans _ _ _ E). revert z Hz. apply Forall_forall, Hy.
    + constructor; [exact IH|].
      apply Forall_forall. intros z Hz.
      apply (Permutation_in _ (insert_by_perm x l)) in Hz as [<- | Hz].
      * destruct (leb_total x y); congruence.
      * revert z Hz. apply Forall_forall, Hy.
Qed.

Lemma sort_by_sorted l : StronglySorted (fun a b => leb a b = true) (sort_by leb l).
Proof.
  induction l as [|x l IH]; cbn; [constructor|].
  apply insert_by_sorted, IH.
Qed.

End SortFacts.

Lemma StronglySorted_filter {A : Type} (R : A -> A -> Prop) (p : A -> bool) l :
  StronglySorted R l -> StronglySorted R (filter p l).
Proof.
  induction 1 as [|x l Hs IH Hx]; cbn; [constructor|].
  destruct (p x); [|exact IH].
  constructor; [exact IH|].
  apply Forall_forall. intros y Hy. apply filter_In in Hy as [Hy _].
  revert y Hy. apply Forall_forall, Hx.
Qed.

Lemma StronglySorted_map {A B : Type} (R : B -> B -> Prop) (f : A -> B) l :
  StronglySorted (fun a b => R (f a) (f b)) l -> StronglySorted R (map f l).
Proof.
  induction 1 as [|x l Hs IH Hx]; cbn; constructor; [exact IH|].
  apply Forall_forall. intros y Hy. apply in_map_iff in Hy as (a & <- & Ha).
  revert a Ha. apply Forall_forall, Hx.
Qed.

Lemma hm_leb_total a b : hm_leb a b = true \/ hm_leb b a = true.
Proof.
  unfold hm_leb.
  destruct (Z.ltb_spec (fst a) (fst b)), (Z.ltb_spec (fst b) (fst a)),
           (Z.eqb_spec (fst a) (fst b)), (Z.eqb_spec (fst b) (fst a)),
           (Z.leb_spec (snd a) (snd b)), (Z.leb_spec (snd b) (snd a));
    cbn; auto; lia.
Qed.

Lemma hm_leb_trans a b c :
  hm_leb a b = true -> hm_leb b c = true -> hm_leb a c = true.
Proof.
  unfold hm_leb.
  destruct (Z.ltb_spec (fst a) (fst b)), (Z.ltb_spec (fst b) (fst c)),
           (Z.ltb_spec (fst a) (fst c)),
           (Z.eqb_spec (fst a) (fst b)), (Z.eqb_spec (fst b) (fst c)),
           (Z.eqb_spec (fst a) (fst c)),
           (Z.leb_spec (snd a) (snd b)), (Z.leb_spec (snd b) (snd c)),
           (Z.leb_spec (snd a) (snd c));
    cbn; auto; try lia; discriminate.
Qed.

(* ------------------------------------------------------------------------- *)
(** ** Further properties of [fetchNotifications] *)

Section NotificationProperties.
Import JSDate.

Variable db : DB.

Lemma notification_parts store serverTime rollNumber classInfo :
  let classDate :=
    Moment.tz_parse Moment.Asia_Kolkata
      (CreateClass.date classInfo) (CreateClass.startTime classInfo) in
  let existingAttendance :=
    Attendance_findOne store rollNumber
      (CreateClass.className classInfo) (CreateClass.subject classInfo)
      (Moment.startOf_day Moment.Asia_Kolkata classDate)
      (Moment.endOf_day Moment.Asia_Kolkata classDate) in
  let minutesUntilStart := Moment.diff_minutes classDate serverTime in
  let minutesFromStart := Moment.diff_minutes serverTime classDate in
  let n := notification store serverTime rollNumber classInfo in
  Notification.status n =
    notification_status existingAttendance
      (Moment.isAfter serverTime
         (Moment.tz_parse Moment.Asia_Kolkata
            (CreateClass.date classInfo) (CreateClass.endTime classInfo)))
      minutesFromStart minutesUntilStart /\
  Notification.minutesUntilStart n = Z.max 0 minutesUntilStart /\
  Notification.minutesRemaining n =
    (if NotifStatus_eqb (Notification.status n) active
     then Z.max 0 (15 - minutesFromStart) else 0) /\
  Notification.attendanceId n = option_map Attendance._id existingAttendance /\
  minutesFromStart = - minutesUntilStart.
Proof.
  cbv zeta. repeat split. apply diff_minutes_opp.
Qed.

(** X8.  In every notification [minutesUntilStart] is at least 0 and
    [minutesRemaining] lies between 0 and 15; [minutesRemaining] is positive
    only for an active class, an active class has [minutesUntilStart] 0, and
    an attendance identifier is attached exactly to the marked classes. *)
Theorem notification_fields store serverTime rollNumber classInfo :
  let n := notification store serverTime rollNumber classInfo in
  0 <= Notification.minutesUntilStart n /\
  0 <= Notification.minutesRemaining n <= 15 /\
  (0 < Notification.minutesRemaining n -> Notification.status n = active) /\
  (Notification.status n = active -> Notification.minutesUntilStart n = 0) /\
  (Notification.attendanceId n <> None <-> Notification.status n = marked).
Proof.
  intros n.
  destruct (notification_parts store serverTime rollNumber classInfo)
    as (Hst & Hmus & Hrem & Hid & Hopp).
  fold n in Hst, Hmus, Hrem, Hid.
  rewrite Hmus, Hrem, Hid, Hst. clear Hmus Hrem Hid Hst. clearbody n.
  set (mus := Moment.diff_minutes _ serverTime) in *.
  set (mfs := Moment.diff_minutes serverTime _) in *.
  clearbody mus mfs. unfold notification_status.
  destruct (Attendance_findOne _ _ _ _ _ _) as [a|]; cbn [option_map].
  { cbn [NotifStatus_eqb]. repeat split; try lia; try discriminate. }
  destruct (Moment.isAfter _ _).
  { cbn [NotifStatus_eqb]. repeat split; try lia; try discriminate; congruence. }
  destruct (Z.leb_spec 0 mfs), (Z.leb_spec mfs 15),
           (Z.leb_spec mus 5), (Z.ltb_spec 5 mus);
    cbn [andb NotifStatus_eqb]; repeat split; try lia; try discriminate; congruence.
Qed.

(** X9.  For a class without record that has not ended, the status follows
    the time to the start of the class: active from less than a minute
    before the start until less than 16 minutes after it; starting_soon
    from less than 6 minutes down to 1 minute before the start, and again
    once the start is 16 minutes or more in the past; upcoming when the
    start is 6 minutes or more away. *)
Theorem status_by_the_clock store serverTime rollNumber classInfo :
  let classDate :=
    Moment.tz_parse Moment.Asia_Kolkata
      (CreateClass.date classInfo) (CreateClass.startTime classInfo) in
  let classEndDate :=
    Moment.tz_parse Moment.Asia_Kolkata
      (CreateClass.date classInfo) (CreateClass.endTime classInfo) in
  let n := notification store serverTime rollNumber classInfo in
  Attendance_findOne store rollNumber
    (CreateClass.className classInfo) (CreateClass.subject classInfo)
    (Moment.startOf_day Moment.Asia_Kolkata classDate)
    (Moment.endOf_day Moment.Asia_Kolkata classDate) = None ->
  serverTime <= classEndDate ->
  (Notification.status n = active <->
     classDate - msPerMinute < serverTime < classDate + 16 * msPerMinute) /\
  (Notification.status n = starting_soon <->
     classDate - 6 * msPerMinute < serverTime <= classDate - msPerMinute \/
     classDate + 16 * msPerMinute <= serverTime) /\
  (Notification.status n = upcoming <-> serverTime <= classDate - 6 * msPerMinute).
Proof.
  intros classDate classEndDate n Hnone Hend.
  destruct (notification_parts store serverTime rollNumber classInfo)
    as (Hst & _ & _ & _ & Hopp).
  fold classDate n in Hst, Hopp. rewrite Hst. fold classDate. rewrite Hnone.
  fold classEndDate. unfold Moment.isAfter.
  replace (classEndDate <? serverTime) with false
    by (symmetry; apply Z.ltb_ge; exact Hend).
  rewrite Hopp. clear Hst Hopp Hnone Hend. clearbody n classEndDate.
  assert (Hq : forall k, k <= Moment.diff_minutes classDate serverTime <->
                         (0 < k -> k * msPerMinute <= classDate - serverTime) /\
                         (k <= 0 -> (k - 1) * msPerMinute < classDate - serverTime)).
  { intros k. unfold Moment.diff_minutes, msPerMinute.
    Z.to_euclidean_division_equations. lia. }
  pose proof (Hq 6) as H6. pose proof (Hq 1) as H1. pose proof (Hq (-15)) as H15.
  pose proof (Hq (-14)) as H14.
  clear Hq. set (mus := Moment.diff_minutes classDate serverTime) in *.
  clearbody mus. unfold notification_status, msPerMinute in *.
  destruct (Z.leb_spec 0 (- mus)), (Z.leb_spec (- mus) 15),
           (Z.leb_spec mus 5), (Z.ltb_spec 5 mus);
    cbn [andb]; repeat split; intros; try discriminate; try lia.
Qed.

Lemma CreateClass_find_In year branch date classInfo :
  In classInfo (CreateClass_find db year branch date) <->
  In classInfo (classes db) /\
  CreateClass.year classInfo = year /\
  CreateClass.branch classInfo = branch /\
  CreateClass.date classInfo = date.
Proof.
  unfold CreateClass_find. split.
  - intros H. apply (Permutation_in _ (sort_by_perm _ _ _)) in H.
    apply filter_In in H as [Hin H].
    apply andb_true_iff in H as [H Hd]. apply andb_true_iff in H as [Hy Hb].
    apply String.eqb_eq in Hy, Hb. apply JSDateFacts.CivilDate_eqb_eq in Hd. auto.
  - intros (Hin & Hy & Hb & Hd).
    apply (Permutation_in _ (Permutation_sym (sort_by_perm _ _ _))).
    apply filter_In. split; [exact Hin|].
    rewrite !andb_true_iff, !String.eqb_eq, JSDateFacts.CivilDate_eqb_eq. auto.
Qed.

(** X10.  For a known student the notifications come in the order of the
    start times of their classes, there are no more of them than scheduled
    classes, and each one shows a scheduled class of the student's year and
    department that is dated today in Asia/Kolkata. *)
Theorem notifications_in_start_order store now rollNumber student :
  Student_findOne db rollNumber = Some student ->
  exists notifications,
    fetchNotifications db store now rollNumber = NotifOk notifications now /\
    StronglySorted
      (fun a b => starts_before (Notification.startTime a) (Notification.startTime b))
      notifications /\
    (List.length notifications <= List.length (classes db))%nat /\
    Forall (fun n =>
              exists classInfo,
                In classInfo (classes db) /\
                CreateClass.year classInfo
                = JSString.Number_toString (Student.year student) /\
                CreateClass.branch classInfo = Student.department student /\
                CreateClass.date classInfo
                = Moment.format_date Moment.Asia_Kolkata now /\
                n = notification store now rollNumber classInfo)
           notifications.
Proof.
  intros Hs. unfold fetchNotifications. rewrite Hs.
  eexists. split; [reflexivity|]. split; [|split].
  - apply StronglySorted_filter, StronglySorted_map.
    unfold CreateClass_find.
    apply (sort_by_sorted _
             (fun a b => hm_leb (CreateClass.startTime a) (CreateClass.startTime b))).
    + intros a b. apply hm_leb_total.
    + intros a b c. apply hm_leb_trans.
  - etransitivity; [apply filter_length_le|]. rewrite length_map.
    unfold CreateClass_find.
    rewrite (Permutation_length (sort_by_perm _ _ _)). apply filter_length_le.
  - apply Forall_forall. intros n Hn. apply filter_In in Hn as [Hn _].
    apply in_map_iff in Hn as (classInfo & <- & Hin).
    apply CreateClass_find_In in Hin as (Hin & Hy & Hb & Hd).
    exists classInfo. auto.
Qed.

Lemma Attendance_findOne_Some_iff store rollNumber className subject from to :
  Attendance_findOne store rollNumber className subject from to <> None <->
  exists a, In a store /\
    Attendance.rollNumber a = rollNumber /\
    Attendance.className a = className /\
    Attendance.subject a = subject /\
    from <= Attendance.time a < to.
Proof.
  unfold Attendance_findOne. split.
  - destruct (find _ store) as [a|] eqn:E; [|congruence]. intros _.
    apply find_some in E as [Hin E].
    rewrite !andb_true_iff, !String.eqb_eq, Z.leb_le, Z.ltb_lt in E.
    exists a. intuition.
  - intros (a & Hin & Hr & Hc & Hs & Ht) E.
    apply (find_none _ _ E) in Hin.
    rewrite <- not_true_iff_false in Hin. apply Hin.
    rewrite !andb_true_iff, !String.eqb_eq, Z.leb_le, Z.ltb_lt. intuition.
Qed.

(** The day of a class starts at midnight of its date in Asia/Kolkata. *)
Lemma classDate_startOf_day date hm :
  within_day hm ->
  Moment.startOf_day Moment.Asia_Kolkata (Moment.tz_parse Moment.Asia_Kolkata date hm)
  = Moment.tz_parse Moment.Asia_Kolkata date (0, 0).
Proof.
  unfold within_day, Moment.startOf_day, Moment.tz_parse, MakeDate. intros H.
  rewrite (JSDateFacts.Day_unique _ (days_from_civil date)) by lia.
  cbn [fst snd]. unfold MakeTime. lia.
Qed.

Lemma status_marked_iff store serverTime rollNumber classInfo :
  Notification.status (notification store serverTime rollNumber classInfo) = marked <->
  Attendance_findOne store rollNumber
    (CreateClass.className classInfo) (CreateClass.subject classInfo)
    (Moment.startOf_day Moment.Asia_Kolkata
       (Moment.tz_parse Moment.Asia_Kolkata
          (CreateClass.date classInfo) (CreateClass.startTime classInfo)))
    (Moment.endOf_day Moment.Asia_Kolkata
       (Moment.tz_parse Moment.Asia_Kolkata
          (CreateClass.date classInfo) (CreateClass.startTime classInfo))) <> None.
Proof.
  destruct (notification_parts store serverTime rollNumber classInfo)
    as (Hst & _). rewrite Hst. unfold notification_status.
  destruct (Attendance_findOne _ _ _ _ _ _) as [a|].
  - split; [discriminate | reflexivity].
  - split; [|congruence].
    destruct (Moment.isAfter _ _); [discriminate|].
    destruct (_ && _); [discriminate|].
    destruct (_ <=? 5); [discriminate|].
    destruct (5 <? _); discriminate.
Qed.

(** X11.  A class is shown as marked exactly when the store holds a record
    of the student for its class name and subject whose timestamp lies on
    the date of the class in Asia/Kolkata, the last millisecond of that day
    excepted. *)
Theorem marked_iff_record_that_day store serverTime rollNumber classInfo :
  within_day (CreateClass.startTime classInfo) ->
  let midnight :=
    Moment.tz_parse Moment.Asia_Kolkata (CreateClass.date classInfo) (0, 0) in
  Notification.status (notification store serverTime rollNumber classInfo) = marked <->
  exists a, In a store /\
    Attendance.rollNumber a = rollNumber /\
    Attendance.className a = CreateClass.className classInfo /\
    Attendance.subject a = CreateClass.subject classInfo /\
    midnight <= Attendance.time a < midnight + msPerDay - 1.
Proof.
  intros Hwf midnight. rewrite status_marked_iff, Attendance_findOne_Some_iff.
  unfold Moment.endOf_day. rewrite (classDate_startOf_day _ _ Hwf).
  fold midnight. reflexivity.
Qed.

(** X12.  On a server running in Asia/Kolkata the two handlers place the
    start of a class dated today at the same instant, and while the
    attendance window of [submitAttendance] is open the class is shown as
    marked, expired or active, never as starting_soon or upcoming. *)
Theorem handlers_agree_in_Kolkata store now clock rollNumber classInfo :
  CreateClass.date classInfo = Moment.format_date Moment.Asia_Kolkata clock ->
  classStartTime Moment.Asia_Kolkata clock (CreateClass.startTime classInfo)
  = Moment.tz_parse Moment.Asia_Kolkata
      (CreateClass.date classInfo) (CreateClass.startTime classInfo) /\
  (timing_check Moment.Asia_Kolkata now clock (CreateClass.startTime classInfo) = None ->
   let n := notification store now rollNumber classInfo in
   Notification.status n = marked \/ Notification.status n = expired \/
   Notification.status n = active).
Proof.
  intros Hdate.
  assert (Hstart :
    classStartTime Moment.Asia_Kolkata clock (CreateClass.startTime classInfo)
    = Moment.tz_parse Moment.Asia_Kolkata
        (CreateClass.date classInfo) (CreateClass.startTime classInfo)).
  { rewrite classStartTime_eq, Hdate. unfold Moment.tz_parse, Moment.format_date.
    rewrite JSDateFacts.days_from_civil_from_days. reflexivity. }
  split; [exact Hstart|]. intros Ht n.
  unfold timing_check in Ht. rewrite attendanceWindowEnd_eq, Hstart in Ht.
  destruct (notification_parts store now rollNumber classInfo) as (Hst & _ & _ & _ & Hopp).
  fold n in Hst. rewrite Hst, Hopp. clear Hst.
  set (classDate := Moment.tz_parse _ _ (CreateClass.startTime classInfo)) in *.
  destruct (Z.ltb_spec now classDate); [discriminate|].
  destruct (Z.ltb_spec (classDate + 15 * msPerMinute) now); [discriminate|].
  assert (Hm : 0 <= Moment.diff_minutes now classDate <= 15).
  { unfold Moment.diff_minutes, msPerMinute in *.
    Z.to_euclidean_division_equations. lia. }
  rewrite <- Hopp. unfold notification_status.
  destruct (Attendance_findOne _ _ _ _ _ _); [left; reflexivity|].
  destruct (Moment.isAfter _ _); [right; left; reflexivity|].
  replace (0 <=? Moment.diff_minutes now classDate) with true
    by (symmetry; apply Z.leb_le; lia).
  replace (Moment.diff_minutes now classDate <=? 15) with true
    by (symmetry; apply Z.leb_le; lia).
  right; right; reflexivity.
Qed.

End NotificationProperties.


(* ------------------------------------------------------------------------- *)
(** ** The handlers together *)

Section HandlersTogether.
Import JSDate.

Variable haversine : Q * Q -> Q * Q -> Q.
Variable RegExp_i : string -> string -> bool.
Variable tz : Z.
Variable db : DB.

Local Abbreviation submit := (submitAttendance haversine RegExp_i tz db).

(** What an accepted submission leaves behind. *)
Lemma accepted_submission store now clock body c :
  is_success (snd (submit store now clock body)) = true ->
  CreateClass_findOne db (Body.classCode body) = Some c ->
  fst (submit store now clock body)
  = store ++ [present_record (List.length store) now body c] /\
  Student_findOne db (Body.rollNumber body) <> None.
Proof.
  intros Hok Hc.
  destruct (submitAttendance_cases haversine RegExp_i tz db store now clock body)
    as [[_ Hno] | (c' & Hc' & Hpass & _ & Heq)]; [congruence|].
  assert (c' = c) as -> by congruence.
  split; [rewrite Heq; reflexivity|].
  apply (gates_to_timing_split _ _ _ _ _ _ _ _ _ Hc) in Hpass as [Hearly _].
  apply early_gates_pass in Hearly as (s & _ & _ & (Hs & _) & _). congruence.
Qed.

(** X13.  After an accepted submission, [fetchNotifications] shows as marked,
    with an attendance identifier, every class of that name and subject
    dated today in Asia/Kolkata, unless the submission was stamped in the
    last millisecond of that day. *)
Theorem accepted_submission_is_marked store now clock body c classInfo serverTime :
  is_success (snd (submit store now clock body)) = true ->
  CreateClass_findOne db (Body.classCode body) = Some c ->
  CreateClass.className classInfo = CreateClass.className c ->
  CreateClass.subject classInfo = CreateClass.subject c ->
  within_day (CreateClass.startTime classInfo) ->
  CreateClass.date classInfo = Moment.format_date Moment.Asia_Kolkata now ->
  TimeWithinDay (now + Moment.Asia_Kolkata) <> msPerDay - 1 ->
  let n := notification (fst (submit store now clock body)) serverTime
             (Body.rollNumber body) classInfo in
  Notification.status n = marked /\ Notification.attendanceId n <> None.
Proof.
  intros Hok Hc Hname Hsubj Hwf Hdate Hms n.
  destruct (accepted_submission _ _ _ _ _ Hok Hc) as [Hst _].
  assert (Hex :
    Attendance_findOne (fst (submit store now clock body)) (Body.rollNumber body)
      (CreateClass.className classInfo) (CreateClass.subject classInfo)
      (Moment.startOf_day Moment.Asia_Kolkata
         (Moment.tz_parse Moment.Asia_Kolkata
            (CreateClass.date classInfo) (CreateClass.startTime classInfo)))
      (Moment.endOf_day Moment.Asia_Kolkata
         (Moment.tz_parse Moment.Asia_Kolkata
            (CreateClass.date classInfo) (CreateClass.startTime classInfo))) <> None).
  { apply Attendance_findOne_Some_iff.
    exists (present_record (List.length store) now body c).
    split; [rewrite Hst; apply in_or_app; right; left; reflexivity|].
    split; [reflexivity|]. split; [symmetry; exact Hname|].
    split; [symmetry; exact Hsubj|].
    unfold Moment.endOf_day. rewrite (classDate_startOf_day _ _ Hwf), Hdate.
    unfold Moment.tz_parse, Moment.format_date, MakeDate, MakeTime.
    rewrite JSDateFacts.days_from_civil_from_days. cbn [fst snd Attendance.time present_record].
    pose proof (JSDateFacts.Day_TimeWithinDay (now + Moment.Asia_Kolkata)) as Hd.
    assert (0 <= TimeWithinDay (now + Moment.Asia_Kolkata) < msPerDay)
      by (apply Z.mod_pos_bound; reflexivity).
    lia. }
  split; [apply status_marked_iff, Hex|].
  destruct (notification_parts (fst (submit store now clock body)) serverTime
              (Body.rollNumber body) classInfo) as (_ & _ & _ & Hid & _).
  fold n in Hid. rewrite Hid.
  destruct (Attendance_findOne _ _ _ _ _ _); [discriminate | congruence].
Qed.

Lemma StronglySorted_weaken {A : Type} (R R' : A -> A -> Prop) l :
  (forall a b, R a b -> R' a b) -> StronglySorted R l -> StronglySorted R' l.
Proof.
  intros H. induction 1 as [|x l Hs IH Hx]; constructor; [exact IH|].
  apply Forall_forall. intros y Hy. apply H. revert y Hy. apply Forall_forall, Hx.
Qed.

Lemma Attendance_find_spec store rollNumber :
  Permutation (Attendance_find store rollNumber)
    (filter (fun a => String.eqb (Attendance.rollNumber a) rollNumber) store) /\
  StronglySorted (fun a b => Attendance.time b <= Attendance.time a)
    (Attendance_find store rollNumber).
Proof.
  unfold Attendance_find. split; [apply sort_by_perm|].
  apply (StronglySorted_weaken
           (fun a b => (Attendance.time b <=? Attendance.time a) = true)).
  - intros a b. apply Z.leb_le.
  - apply (sort_by_sorted _ (fun a b => Attendance.time b <=? Attendance.time a)).
    + intros a b. rewrite !Z.leb_le. lia.
    + intros a b c. rewrite !Z.leb_le. lia.
Qed.

(** X14.  The history of a known student lists the records of that student,
    all of them and each once, newest first, each shown with the date, hour
    and minute of its timestamp in the zone of the server. *)
Theorem history_newest_first store rollNumber student :
  Student_findOne db rollNumber = Some student ->
  exists records,
    getAttendanceHistory tz db store rollNumber
    = HistOk (map (history_entry tz) records) /\
    Permutation records
      (filter (fun a => String.eqb (Attendance.rollNumber a) rollNumber) store) /\
    StronglySorted (fun a b => Attendance.time b <= Attendance.time a) records.
Proof.
  intros Hs. exists (Attendance_find store rollNumber).
  split; [|apply Attendance_find_spec].
  unfold getAttendanceHistory. rewrite Hs. reflexivity.
Qed.

(** X15.  An accepted submission adds one entry to the history of its
    student, the Present entry of the recorded class at the local date and
    time of [now], and leaves the history of every other student as it
    was. *)
Theorem accepted_submission_in_history store now clock body c :
  is_success (snd (submit store now clock body)) = true ->
  CreateClass_findOne db (Body.classCode body) = Some c ->
  let store' := fst (submit store now clock body) in
  (exists h h',
     getAttendanceHistory tz db store (Body.rollNumber body) = HistOk h /\
     getAttendanceHistory tz db store' (Body.rollNumber body) = HistOk h' /\
     List.length h' = S (List.length h) /\
     In (HistoryEntry.mk (CreateClass.className c) (CreateClass.subject c)
           "Present"
           (civil_from_days (Day (LocalTime tz now)))
           (HourFromTime (LocalTime tz now), MinFromTime (LocalTime tz now)))
        h') /\
  (forall rollNumber, rollNumber <> Body.rollNumber body ->
     getAttendanceHistory tz db store' rollNumber
     = getAttendanceHistory tz db store rollNumber).
Proof.
  intros Hok Hc store'.
  destruct (accepted_submission _ _ _ _ _ Hok Hc) as [Hst Hs].
  subst store'. rewrite Hst. clear Hst.
  set (r := present_record (List.length store) now body c).
  split.
  - destruct (Student_findOne db (Body.rollNumber body)) as [s|] eqn:Es; [|congruence].
    assert (Hperm : Permutation (Attendance_find (store ++ [r]) (Body.rollNumber body))
                      (r :: Attendance_find store (Body.rollNumber body))).
    { unfold Attendance_find. rewrite sort_by_perm, filter_app. cbn [filter].
      change (Attendance.rollNumber r) with (Body.rollNumber body).
      rewrite String.eqb_refl, sort_by_perm.
      rewrite Permutation_app_comm. reflexivity. }
    exists (map (history_entry tz) (Attendance_find store (Body.rollNumber body))),
           (map (history_entry tz) (Attendance_find (store ++ [r]) (Body.rollNumber body))).
    split; [unfold getAttendanceHistory; rewrite Es; reflexivity|].
    split; [unfold getAttendanceHistory; rewrite Es; reflexivity|].
    split.
    + rewrite !length_map, (Permutation_length Hperm). reflexivity.
    + change (HistoryEntry.mk (CreateClass.className c) (CreateClass.subject c)
                "Present"
                (civil_from_days (Day (LocalTime tz now)))
                (HourFromTime (LocalTime tz now), MinFromTime (LocalTime tz now)))
        with (history_entry tz r).
      apply in_map, (Permutation_in _ (Permutation_sym Hperm)). left. reflexivity.
  - intros rollNumber Hne. unfold getAttendanceHistory, Attendance_find.
    rewrite filter_app. cbn [filter].
    change (Attendance.rollNumber r) with (Body.rollNumber body).
    replace (String.eqb (Body.rollNumber body) rollNumber) with false
      by (symmetry; apply String.eqb_neq; congruence).
    rewrite app_nil_r. reflexivity.
Qed.

(** X16.  The date in the success response is the UTC date of [now], the
    date shown in the history for the record is its date in the zone of the
    server; the two agree exactly when [now] falls on the same day in UTC
    and in that zone. *)
Theorem success_date_and_history_date store now clock body c :
  is_success (snd (submit store now clock body)) = true ->
  CreateClass_findOne db (Body.classCode body) = Some c ->
  snd (submit store now clock body)
  = Success (CreateClass.className c) (CreateClass.subject c) (toISODate now) now /\
  (toISODate now
   = HistoryEntry.date
       (history_entry tz (present_record (List.length store) now body c))
   <-> Day now = Day (LocalTime tz now)).
Proof.
  intros Hok Hc.
  destruct (submitAttendance_cases haversine RegExp_i tz db store now clock body)
    as [[_ Hno] | (c' & Hc' & _ & _ & Heq)]; [congruence|].
  assert (c' = c) as -> by congruence.
  split; [rewrite Heq; reflexivity|].
  cbn [history_entry HistoryEntry.date present_record Attendance.time].
  unfold toISODate. split.
  - apply JSDateFacts.civil_from_days_inj.
  - intros ->. reflexivity.
Qed.

End HandlersTogether.

(* ------------------------------------------------------------------------- *)
(** ** The further properties on the sample deployments *)

(** With the code of the other class and the name of the sample class, the
    record is one of the other class. *)
Lemma recorded_class_is_the_coded_one_witness :
  Sample.RegExp_i (CreateClass.className Sample2.other_class)
    (AddClass.className Sample.location) = false /\
  submitAttendance Sample.haversine Sample.RegExp_i Moment.Asia_Kolkata Sample2.db
    [] Sample.nine_oh_five Sample.nine_oh_five Sample2.crossed_body
  = ([Attendance.mk 0 "21CS001" "MA101" "Calculus" "K9P4" "Present"
        Sample.nine_oh_five],
     Success "MA101" "Calculus" (JSDate.mkDate 2024 1 2) Sample.nine_oh_five).
Proof.
  split; [reflexivity|].
  destruct (recorded_class_is_the_coded_one Sample.haversine Sample.RegExp_i
              Moment.Asia_Kolkata Sample2.db [] Sample.nine_oh_five
              Sample.nine_oh_five Sample2.crossed_body Sample2.other_class
              Sample.location eq_refl eq_refl) as [Hres _];
    [vm_compute; reflexivity | exact Hres].
Defined.

(** One millisecond before the start the class is 1 minute away. *)
Lemma reported_minutes_bounds_witness :
  snd (submitAttendance Sample.haversine Sample.RegExp_i Moment.Asia_Kolkata
         Sample.db [] (Sample.nine - 1) Sample.nine Sample.body) = TooEarly 1 /\
  1 <= 1.
Proof.
  split; [vm_compute; reflexivity|].
  apply (proj1 (reported_minutes_bounds Sample.haversine Sample.RegExp_i
                  Moment.Asia_Kolkata Sample.db [] (Sample.nine - 1) Sample.nine
                  Sample.body) 1).
  vm_compute. reflexivity.
Defined.

(** A request stamped just before local midnight whose class start is dated
    just after it. *)
Lemma clock_read_after_midnight_witness :
  exists n,
    submitAttendance Sample.haversine Sample.RegExp_i Moment.Asia_Kolkata Sample.db
      [] Sample2.before_midnight Sample2.after_midnight Sample.body
    = ([], TooEarly n) /\ 1 <= n.
Proof.
  apply (clock_read_after_midnight Sample.haversine Sample.RegExp_i
           Moment.Asia_Kolkata Sample.db [] Sample2.before_midnight
           Sample2.after_midnight Sample.body Sample.class).
  - vm_compute. reflexivity.
  - reflexivity.
  - unfold within_day. split; [apply Z.leb_le | apply Z.ltb_lt]; vm_compute; reflexivity.
  - vm_compute. reflexivity.
Defined.

(** A configured identifier of two spaces. *)
Lemma blank_beacon_identifiers_witness :
  beacon_check (Some "  "%string) (Some "abc123"%string) = Some Misconfigured.
Proof.
  apply (proj1 blank_beacon_identifiers). reflexivity.
Defined.

(** After the 09:00 session is marked, the 09:10 session of the same class
    and subject is refused at 09:12. *)
Lemma duplicate_key_ignores_class_code_witness :
  let submit :=
    submitAttendance Sample.haversine Sample.RegExp_i Moment.Asia_Kolkata
      Sample2.sessions_db in
  let store' := fst (submit [] Sample.nine_oh_five Sample.nine_oh_five Sample.body) in
  let later := Sample.nine + 12 * JSDate.msPerMinute in
  fst (submit store' later later Sample2.second_body) = store' /\
  is_success (snd (submit store' later later Sample2.second_body)) = false.
Proof.
  cbv zeta.
  assert (Hok : is_success
                  (snd (submitAttendance Sample.haversine Sample.RegExp_i
                          Moment.Asia_Kolkata Sample2.sessions_db []
                          Sample.nine_oh_five Sample.nine_oh_five Sample.body))
                = true) by (vm_compute; reflexivity).
  apply (duplicate_key_ignores_class_code Sample.haversine Sample.RegExp_i
           Moment.Asia_Kolkata Sample2.sessions_db [] Sample.nine_oh_five
           Sample.nine_oh_five Sample.body Sample.class Hok eq_refl
           Sample2.second_body Sample2.second_session
           (Sample.nine + 12 * JSDate.msPerMinute)
           (Sample.nine + 12 * JSDate.msPerMinute));
    reflexivity.
Defined.

(** Ten minutes after the start the sample class is active and its
    [minutesUntilStart] is 0. *)
Lemma notification_fields_witness :
  Notification.minutesUntilStart
    (notification [] (Sample.nine + 10 * JSDate.msPerMinute) "21CS001" Sample.class)
  = 0.
Proof.
  destruct (notification_fields [] (Sample.nine + 10 * JSDate.msPerMinute)
              "21CS001" Sample.class) as (_ & _ & _ & Hactive & _).
  apply Hactive. reflexivity.
Defined.

(** Twenty minutes after its start the sample class, which lasts an hour, is
    shown as starting soon. *)
Lemma status_by_the_clock_witness :
  Notification.status
    (notification [] (Sample.nine + 20 * JSDate.msPerMinute) "21CS001" Sample.class)
  = starting_soon.
Proof.
  destruct (status_by_the_clock [] (Sample.nine + 20 * JSDate.msPerMinute)
              "21CS001" Sample.class) as (_ & Hsoon & _).
  - reflexivity.
  - apply Z.leb_le. vm_compute. reflexivity.
  - apply Hsoon. right. apply Z.leb_le. vm_compute. reflexivity.
Defined.

(** The two sessions of the sample class come in the order 09:00, 09:10. *)
Lemma notifications_in_start_order_witness :
  exists notifications,
    fetchNotifications Sample2.sessions_db [] (Sample.nine - 3 * JSDate.msPerMinute)
      "21CS001"
    = NotifOk notifications (Sample.nine - 3 * JSDate.msPerMinute) /\
    StronglySorted
      (fun a b => starts_before (Notification.startTime a) (Notification.startTime b))
      notifications.
Proof.
  destruct (notifications_in_start_order Sample2.sessions_db []
              (Sample.nine - 3 * JSDate.msPerMinute) "21CS001" Sample.student eq_refl)
    as (ns & Hres & Hsorted & _).
  exists ns. split; assumption.
Defined.

(** A record stamped at 09:05 marks the sample class. *)
Lemma marked_iff_record_that_day_witness :
  Notification.status
    (notification
       [Attendance.mk 0 "21CS001" "CS201" "Algorithms" "X7Q2" "Present"
          Sample.nine_oh_five]
       Sample.nine_oh_five "21CS001" Sample.class)
  = marked.
Proof.
  apply (marked_iff_record_that_day
           [Attendance.mk 0 "21CS001" "CS201" "Algorithms" "X7Q2" "Present"
              Sample.nine_oh_five]
           Sample.nine_oh_five "21CS001" Sample.class).
  - unfold within_day. split; [apply Z.leb_le | apply Z.ltb_lt]; vm_compute; reflexivity.
  - eexists. split; [left; reflexivity|]. repeat split; vm_compute; congruence.
Defined.

(** At 09:05 on a server in Asia/Kolkata the window is open and the sample
    class is active. *)
Lemma handlers_agree_in_Kolkata_witness :
  classStartTime Moment.Asia_Kolkata Sample.nine_oh_five (9, 0) = Sample.nine /\
  Notification.status (notification [] Sample.nine_oh_five "21CS001" Sample.class)
  = active.
Proof.
  destruct (handlers_agree_in_Kolkata [] Sample.nine_oh_five Sample.nine_oh_five
              "21CS001" Sample.class eq_refl) as [Hstart Hopen].
  split; [exact Hstart|].
  destruct (Hopen eq_refl) as [H | [H | H]]; [discriminate H | discriminate H | exact H].
Defined.

(** The accepted sample submission is shown as marked. *)
Lemma accepted_submission_is_marked_witness :
  Notification.status
    (notification
       (fst (submitAttendance Sample.haversine Sample.RegExp_i Moment.Asia_Kolkata
               Sample.db [] Sample.nine_oh_five Sample.nine_oh_five Sample.body))
       (Sample.nine + 30 * JSDate.msPerMinute) "21CS001" Sample.class)
  = marked.
Proof.
  destruct (accepted_submission_is_marked Sample.haversine Sample.RegExp_i
              Moment.Asia_Kolkata Sample.db [] Sample.nine_oh_five
              Sample.nine_oh_five Sample.body Sample.class Sample.class
              (Sample.nine + 30 * JSDate.msPerMinute)) as [Hmarked _].
  - vm_compute. reflexivity.
  - reflexivity.
  - reflexivity.
  - reflexivity.
  - unfold within_day. split; [apply Z.leb_le | apply Z.ltb_lt]; vm_compute; reflexivity.
  - reflexivity.
  - vm_compute. discriminate.
  - exact Hmarked.
Defined.

(** The history of the sample student over two records in the order of their
    insertion: the newer comes first. *)
Lemma history_newest_first_witness :
  exists records,
    getAttendanceHistory Moment.Asia_Kolkata Sample.db
      [Attendance.mk 0 "21CS001" "CS201" "Algorithms" "X7Q2" "Present" Sample.nine;
       Attendance.mk 1 "21CS001" "CS201" "Algorithms" "X7Q2" "Present" Sample.march_15]
      "21CS001"
    = HistOk (map (history_entry Moment.Asia_Kolkata) records) /\
    StronglySorted (fun a b => Attendance.time b <= Attendance.time a) records.
Proof.
  destruct (history_newest_first Moment.Asia_Kolkata Sample.db
              [Attendance.mk 0 "21CS001" "CS201" "Algorithms" "X7Q2" "Present"
                 Sample.nine;
               Attendance.mk 1 "21CS001" "CS201" "Algorithms" "X7Q2" "Present"
                 Sample.march_15]
              "21CS001" Sample.student eq_refl) as (records & Hres & _ & Hsorted).
  exists records. split; assumption.
Defined.

(** The accepted sample submission shows in the history of its student. *)
Lemma accepted_submission_in_history_witness :
  exists h',
    getAttendanceHistory Moment.Asia_Kolkata Sample.db
      (fst (submitAttendance Sample.haversine Sample.RegExp_i Moment.Asia_Kolkata
              Sample.db [] Sample.nine_oh_five Sample.nine_oh_five Sample.body))
      "21CS001" = HistOk h' /\
    In (HistoryEntry.mk "CS201" "Algorithms" "Present" (JSDate.mkDate 2024 1 2) (9, 5)) h'.
Proof.
  destruct (accepted_submission_in_history Sample.haversine Sample.RegExp_i
              Moment.Asia_Kolkata Sample.db [] Sample.nine_oh_five
              Sample.nine_oh_five Sample.body Sample.class)
    as [(h & h' & _ & Hh' & _ & Hin) _]; [vm_compute; reflexivity | reflexivity |].
  exists h'. split; [exact Hh' | exact Hin].
Defined.

(** At 09:05 in Asia/Kolkata the UTC date and the local date are the same. *)
Lemma success_date_and_history_date_witness :
  JSDate.toISODate Sample.nine_oh_five
  = HistoryEntry.date
      (history_entry Moment.Asia_Kolkata
         (present_record 0 Sample.nine_oh_five Sample.body Sample.class)).
Proof.
  destruct (success_date_and_history_date Sample.haversine Sample.RegExp_i
              Moment.Asia_Kolkata Sample.db [] Sample.nine_oh_five
              Sample.nine_oh_five Sample.body Sample.class)
    as [_ Hiff]; [vm_compute; reflexivity | reflexivity |].
  apply Hiff. reflexivity.
Defined.

(** The sample request without coordinates is not stopped by the geofence. *)
Lemma missing_coordinates_pass_geofence_witness :
  gate_geofence Sample.haversine Sample.RegExp_i Sample.db
    [] Sample.nine_oh_five Sample.nine_oh_five Sample2.nowhere_body = None /\
  is_success
    (snd (submitAttendance Sample.haversine Sample.RegExp_i Moment.Asia_Kolkata
            Sample.db [] Sample.nine_oh_five Sample.nine_oh_five
            Sample2.nowhere_body)) = true.
Proof.
  split; [|vm_compute; reflexivity].
  apply (missing_coordinates_pass_geofence Sample.haversine Sample.RegExp_i
           Moment.Asia_Kolkata Sample.db [] Sample.nine_oh_five
           Sample.nine_oh_five Sample2.nowhere_body).
  left. reflexivity.
Defined.

(** The operator object as class code is answered with the stored code. *)
Lemma non_string_code_is_mismatch_witness :
  submitAttendance Sample.haversine Sample.RegExp_i Moment.Asia_Kolkata Sample.db
    [] Sample.nine_oh_five Sample.nine_oh_five Sample2.operator_body
  = ([], CodeMismatch (CreateClass.classCode Sample.class)).
Proof.
  apply (non_string_code_is_mismatch Sample.haversine Sample.RegExp_i
           Moment.Asia_Kolkata Sample.db [] Sample.nine_oh_five
           Sample.nine_oh_five Sample2.operator_body Sample.student Sample.class
           Sample.location).
  - repeat split.
  - vm_compute. reflexivity.
  - vm_compute. reflexivity.
  - intros text. discriminate.
Defined.
